(** * SharePoint audit agent: risk analysis and run orchestration

    A shallow embedding of [agent/python/audit_agent.py] and the properties
    its design document states about it.

    Conventions.
    - A Python [str] is a Rocq [string]; text outside ASCII stands for its
      UTF-8 encoding, and a surrogate code point, which has none, for the
      three bytes the layout of UTF-8 gives it.
    - A value produced by [json.loads] is a [pyval]; a JSON object is a
      [gmap] from keys to values.
    - Code that can raise returns a [result]; [Raise e] is the exception
      leaving the function.
    - What the Python runtime and the host provide and the program only
      calls (the JSON parser, the Markdown renderer, [repr] of floats and
      containers, the PowerShell host) is collected in records of functions
      that the definitions take as a parameter. *)

From stdpp Require Import gmap strings list pretty.
From Stdlib Require Import Strings.Ascii Floats.SpecFloat.

Set Warnings "-register-all".
#[local] Open Scope string_scope.
#[local] Open Scope Z_scope.

(** ** Python values, exceptions *)

Module Py.

Inductive pyval :=
| PNone
| PBool (b : bool)
| PInt (n : Z)
| PFloat (f : spec_float)
| PStr (s : string)
| PList (l : list pyval)
| PDict (d : gmap string pyval).

Inductive exn :=
| AttributeError (msg : string)
| TypeError (msg : string)
| ValueError (msg : string)
| CmdError (msg : string)
| OSError (msg : string)
| JSONDecodeError (msg : string)
| TimeoutExpired (msg : string)
| UnicodeEncodeError (msg : string).

(** [str(e)] *)
Definition exn_str (e : exn) : string :=
  match e with
  | AttributeError m | TypeError m | ValueError m | CmdError m
  | OSError m | JSONDecodeError m | TimeoutExpired m | UnicodeEncodeError m => m
  end.

Inductive result (A : Type) :=
| Ok (a : A)
| Raise (e : exn).
Arguments Ok {A} a.
Arguments Raise {A} e.

#[global] Instance result_ret : MRet result := λ A a, Ok a.
#[global] Instance result_bind : MBind result := λ A B f m,
  match m with Ok a => f a | Raise e => Raise e end.

Definition is_ok {A} (r : result A) : bool :=
  match r with Ok _ => true | Raise _ => false end.

(** [type(v).__name__] *)
Definition type_name (v : pyval) : string :=
  match v with
  | PNone => "NoneType"
  | PBool _ => "bool"
  | PInt _ => "int"
  | PFloat _ => "float"
  | PStr _ => "str"
  | PList _ => "list"
  | PDict _ => "dict"
  end.

(** Truth value testing, [bool(v)]. *)
Definition truthy (v : pyval) : bool :=
  match v with
  | PNone => false
  | PBool b => b
  | PInt n => negb (n =? 0)
  | PFloat (S754_zero _) => false
  | PFloat _ => true
  | PStr s => negb (String.eqb s "")
  | PList l => match l with [] => false | _ => true end
  | PDict d => negb (bool_decide (d = ∅))
  end.

(** [a or b] *)
Definition py_or (a b : pyval) : pyval := if truthy a then a else b.

(** [v.get(key)] and [v.get(key, default)]: only a dict has [get]. *)
Definition get_attr_error (v : pyval) : exn :=
  AttributeError ("'" ++ type_name v ++ "' object has no attribute 'get'").

Definition py_get (v : pyval) (key : string) (default : pyval) : result pyval :=
  match v with
  | PDict d => Ok (match d !! key with Some x => x | None => default end)
  | _ => Raise (get_attr_error v)
  end.

(** Order of a float against an integer; Python compares the two exactly.
    [None] is the unordered case (NaN). *)
Definition float_cmp_int (f : spec_float) (t : Z) : option comparison :=
  match f with
  | S754_nan => None
  | S754_zero _ => Some (0 ?= t)
  | S754_infinity s => Some (if s then Lt else Gt)
  | S754_finite s m e =>
      let v := if s then Z.neg m else Z.pos m in
      Some (if 0 <=? e then (v * 2 ^ e ?= t) else (v ?= t * 2 ^ (- e)))
  end.

(** [v ?= t] for an int [t]: numbers (bool included) are ordered, anything
    else raises [TypeError] from the comparison operator [op]. *)
Definition cmp_int (op : string) (v : pyval) (t : Z) : result (option comparison) :=
  match v with
  | PInt n => Ok (Some (n ?= t))
  | PBool b => Ok (Some ((if b then 1 else 0) ?= t))
  | PFloat f => Ok (float_cmp_int f t)
  | _ => Raise (TypeError ("'" ++ op ++ "' not supported between instances of '"
                           ++ type_name v ++ "' and 'int'"))
  end.

(** [v > t] *)
Definition py_gt (v : pyval) (t : Z) : result bool :=
  c ← cmp_int ">" v t;
  Ok (match c with Some Gt => true | _ => false end).

(** [v >= t] *)
Definition py_ge (v : pyval) (t : Z) : result bool :=
  c ← cmp_int ">=" v t;
  Ok (match c with Some Gt | Some Eq => true | _ => false end).

(** What the program takes from the Python runtime without defining it. *)
Record Runtime := {
  (** [json.loads] *)
  json_loads : string → result pyval;
  (** [import markdown; markdown.markdown(md, extensions=[...])]; a failing
      import is a [Raise] as well. *)
  markdown_html : string → result string;
  (** [repr] of a float, a list or a dict. *)
  repr_other : pyval → string;
}.

(** [str(v)], as an f-string renders [{v}]. *)
Definition py_str (rt : Runtime) (v : pyval) : string :=
  match v with
  | PNone => "None"
  | PBool true => "True"
  | PBool false => "False"
  | PInt n => pretty n
  | PStr s => s
  | PFloat _ | PList _ | PDict _ => repr_other rt v
  end.

(** [s.replace(c, by)] for a one-character [c] *)
Fixpoint replace_char (c : ascii) (by_ : string) (s : string) : string :=
  match s with
  | EmptyString => EmptyString
  | String x r =>
      if Ascii.eqb x c then by_ ++ replace_char c by_ r
      else String x (replace_char c by_ r)
  end.

Definition nl : string := String "010"%char "".

(** [s.startswith(lead)] *)
Fixpoint starts_with (lead s : string) : bool :=
  match lead, s with
  | EmptyString, _ => true
  | String a lead', String b s' => Ascii.eqb a b && starts_with lead' s'
  | String _ _, EmptyString => false
  end.

(** Encoding a text as UTF-8, which is what [write_text] does with it. A
    text made by [json.loads] can hold a surrogate, from a lone escape
    [\ud800] to [\udfff]; it stands here as the bytes [ED], [A0]-[BF],
    [80]-[BF], and encoding it raises. *)
Definition byte_between (lo hi : N) (c : ascii) : bool :=
  ((lo <=? N_of_ascii c) && (N_of_ascii c <=? hi))%N.

Definition is_surrogate (a b c : ascii) : bool :=
  Ascii.eqb a "237" && byte_between 160 191 b && byte_between 128 191 c.

(** how many surrogates follow one another at the start of [s] *)
Fixpoint surrogate_run (s : string) : Z :=
  match s with
  | String a (String b (String c r)) =>
      if is_surrogate a b c then 1 + surrogate_run r else 0
  | _ => 0
  end.

(** the code point of the surrogate that [s] begins with *)
Definition surrogate_head (s : string) : Z :=
  match s with
  | String a (String b (String c _)) =>
      53248 + (Z.of_N (N_of_ascii b) - 128) * 64 + (Z.of_N (N_of_ascii c) - 128)
  | _ => 0
  end.

(** The first surrogate of [s]: the number of code points before it, and
    [s] from it on. A byte [80]-[BF] continues a code point, every other
    byte begins one. *)
Fixpoint first_surrogate (before : Z) (s : string) : option (Z * string) :=
  match s with
  | EmptyString => None
  | String a r =>
      if 0 <? surrogate_run s then Some (before, s)
      else first_surrogate (if byte_between 128 191 a then before else before + 1) r
  end.

Definition hex_digit (n : Z) : string :=
  match String.get (Z.to_nat n) "0123456789abcdef" with
  | Some c => String c EmptyString
  | None => EmptyString
  end.

Definition hex4 (n : Z) : string :=
  hex_digit (n / 4096) ++ hex_digit (n / 256 mod 16) ++ hex_digit (n / 16 mod 16)
  ++ hex_digit (n mod 16).

(** [str(e)] of the [UnicodeEncodeError] that [text.encode("utf-8")]
    raises, if it raises: it names the first run of surrogates. *)
Definition encode_error (text : string) : option string :=
  match first_surrogate 0 text with
  | None => None
  | Some (at_, rest) =>
      let n := surrogate_run rest in
      Some ("'utf-8' codec can't encode "
            ++ (if n =? 1
                then "character '\u" ++ hex4 (surrogate_head rest) ++ "' in position "
                     ++ pretty at_
                else "characters in position " ++ pretty at_ ++ "-" ++ pretty (at_ + n - 1))
            ++ ": surrogates not allowed")
  end.

End Py.
Export Py.

(** ** The output tree

    A path is the list of its components below the root. The tree records
    which paths are directories, what text each regular file holds, and
    what the system will not make; the text is the file decoded, and a file
    that does not decode is outside the model. The three operations are the
    ones the program uses from [pathlib], with the errors they raise: a
    path taken by the other kind of entry, a name that is too long, an
    entry the system refuses, a text that cannot be encoded. *)

Module Fs.

Definition path := list string.

(** [refused] is what the system will not create or open for writing, with
    the text of its [OSError]: no permission, no space or quota left, a
    volume that is read-only, a path that is too long as a whole. *)
Record fs := {
  dirs : gset (list string);
  files : gmap (list string) string;
  refused : list string → option string;
}.

(** [str(p)] *)
Definition path_str (p : path) : string :=
  "/" ++ String.concat "/" p.

(** every prefix of [p], [p] itself included *)
Fixpoint parents_and_self (p : path) : list path :=
  match p with
  | [] => [[]]
  | c :: r => [] :: map (cons c) (parents_and_self r)
  end.

(** The longest name of an entry, in bytes. *)
Definition NAME_MAX : nat := 255.

Definition fits (name : string) : bool := (String.length name <=? NAME_MAX)%nat.

(** the tree with the directory [q] *)
Definition with_dir (q : path) (t : fs) : fs :=
  {| dirs := {[ q ]} ∪ dirs t; files := files t; refused := refused t |}.

(** [p.mkdir(parents=True, exist_ok=True)], from the root down: [here] is
    there, [rest] is still to go. A directory on the way is passed. A
    regular file on the way raises; so does a missing entry whose name is
    too long or that the system refuses; any other missing entry is made.
    What was made before an error stays, and [made] tells that something
    was: the error of a name that is too long then names the entry, and
    else the whole path, as the nested calls of [pathlib] have it. *)
Fixpoint make_dirs (p here : path) (rest : list string) (made : bool) (t : fs)
    : fs * result unit :=
  match rest with
  | [] => (t, Ok ())
  | name :: rest' =>
      let q := (here ++ [name])%list in
      if bool_decide (q ∈ dirs t) then make_dirs p q rest' made t
      else if bool_decide (q ∈ dom (files t)) then
        (t, Raise (OSError ((match rest' with
                             | [] => "[Errno 17] File exists: '"
                             | _ => "[Errno 20] Not a directory: '"
                             end) ++ path_str p ++ "'")))
      else if negb (fits name) then
        (t, Raise (OSError ("[Errno 36] File name too long: '"
                            ++ path_str (if made then q else p) ++ "'")))
      else
        match refused t q with
        | Some msg => (t, Raise (OSError msg))
        | None => make_dirs p q rest' true (with_dir q t)
        end
  end.

Definition mkdir_p (p : path) (t : fs) : fs * result unit :=
  make_dirs p [] p false t.

(** [p.read_text(encoding="utf-8")] *)
Definition read_text (p : path) (t : fs) : result string :=
  match files t !! p with
  | Some text => Ok text
  | None =>
      Raise (OSError (if bool_decide (p ∈ dirs t)
                      then "[Errno 21] Is a directory: '" ++ path_str p ++ "'"
                      else "[Errno 2] No such file or directory: '" ++ path_str p ++ "'"))
  end.

(** the tree with [text] as the content of the regular file [p] *)
Definition store (p : path) (text : string) (t : fs) : fs :=
  {| dirs := dirs t; files := <[p := text]> (files t); refused := refused t |}.

(** [p.write_text(text, encoding="utf-8")]: it raises when [p] is a
    directory, when the directory to hold it is not there, or when the
    system refuses the file. Else the file is made or emptied, and then
    the text is encoded and written: a text that cannot be encoded raises
    and leaves the file empty. *)
Definition write_text (p : path) (text : string) (t : fs) : fs * result unit :=
  if bool_decide (p ∈ dirs t)
  then (t, Raise (OSError ("[Errno 21] Is a directory: '" ++ path_str p ++ "'")))
  else if negb (bool_decide (removelast p ∈ dirs t))
  then (t, Raise (OSError (if bool_decide (removelast p ∈ dom (files t))
                           then "[Errno 20] Not a directory: '" ++ path_str p ++ "'"
                           else "[Errno 2] No such file or directory: '"
                                ++ path_str p ++ "'")))
  else
    match refused t p with
    | Some msg => (t, Raise (OSError msg))
    | None =>
        match encode_error text with
        | Some msg => (store p "" t, Raise (UnicodeEncodeError msg))
        | None => (store p text t, Ok ())
        end
    end.

Definition empty : fs := {| dirs := {[ [] ]}; files := ∅; refused := λ _, None |}.

End Fs.

(** ** Metrics normalizer, risk classifier, report composer

    [analyze] of the source, lines 92-146, in its three parts. *)

Module Audit.

(** The threshold configuration: the shape of [DEFAULT_THRESHOLDS], flags
    as booleans and limits as integers. *)
Record thresholds := {
  critical_anyone_or_everyone : bool;
  critical_external_owner : bool;
  high_direct_web_perms : bool;
  high_unique_items_gt : Z;
  medium_external_item_identities_gte : Z;
  medium_group_without_owner : bool;
}.

Definition DEFAULT_THRESHOLDS : thresholds := {|
  critical_anyone_or_everyone := true;
  critical_external_owner := true;
  high_direct_web_perms := true;
  high_unique_items_gt := 250;
  medium_external_item_identities_gte := 10;
  medium_group_without_owner := true;
|}.

Definition CSS : string :=
  "body{font-family:system-ui,Segoe UI,Roboto,Helvetica,Arial,sans-serif;max-width:960px;margin:2rem auto;padding:0 1rem} h1{font-size:1.8rem} h2{font-size:1.3rem;margin-top:2rem} code,pre{background:#f6f8fa;border:1px solid #eaecef;border-radius:6px;padding:.2rem .4rem}".

(** The dict [counts] of the source. The four numeric entries hold whatever
    the artifact held when that was truthy, else the int 0; the two others
    are [bool(...)]. *)
Record counts := {
  unique_items : pyval;
  external_identities : pyval;
  direct_web_assignments : pyval;
  groups_without_owner : pyval;
  anyone_or_everyone : bool;
  external_owner : bool;
}.

(** A NormalizedCounts of the design document: integer counts. *)
Definition int_counts (u e d g : Z) (a o : bool) : counts := {|
  unique_items := PInt u;
  external_identities := PInt e;
  direct_web_assignments := PInt d;
  groups_without_owner := PInt g;
  anyone_or_everyone := a;
  external_owner := o;
|}.

Definition default_counts : counts := int_counts 0 0 0 0 false false.

(** A finding is the pair (severity, message) the source appends. *)
Definition finding : Type := string * string.

(** Lines 94-102. *)
Definition normalize (data : pyval) : result counts :=
  metrics ← py_get data "metrics" (PDict ∅);
  items ← py_get metrics "itemsWithUniquePermissions" PNone;
  users ← py_get metrics "externalUsers" PNone;
  web ← py_get metrics "webDirectAssignments" PNone;
  orphaned ← py_get metrics "orphanedGroups" PNone;
  anyone ← py_get metrics "anyoneOrEveryoneAtWeb" PNone;
  owner ← py_get metrics "externalOwnerPresent" PNone;
  Ok {| unique_items := py_or items (PInt 0);
        external_identities := py_or users (PInt 0);
        direct_web_assignments := py_or web (PInt 0);
        groups_without_owner := py_or orphaned (PInt 0);
        anyone_or_everyone := truthy anyone;
        external_owner := truthy owner |}.

(** [if cond: findings.append(f)] *)
Definition append_if (cond : bool) (f : finding) (findings : list finding) : list finding :=
  if cond then findings ++ [f] else findings.

Definition em_dash : string := "—".

Section WithRuntime.
Context (rt : Runtime).

Definition anyone_finding : finding :=
  ("Critical", "'Anyone/Everyone' access detected at web/site scope.").
Definition owner_finding : finding :=
  ("Critical", "Guest/external user with Owner role detected.").
Definition web_finding (n : pyval) : finding :=
  ("High", "Direct user permissions at web scope: " ++ py_str rt n).
Definition items_finding (n : pyval) : finding :=
  ("High", "Items with unique permissions: " ++ py_str rt n).
Definition identities_finding (n : pyval) : finding :=
  ("Medium", "External identities with item-level access: " ++ py_str rt n).
Definition groups_finding (n : pyval) : finding :=
  ("Medium", "SharePoint groups without owners: " ++ py_str rt n).

(** Lines 103-115: the six rules, in the order of the source. *)
Definition classify (t : thresholds) (c : counts) : result (list finding) :=
  let findings := [] in
  let findings :=
    append_if (critical_anyone_or_everyone t && anyone_or_everyone c)
      anyone_finding findings in
  let findings :=
    append_if (critical_external_owner t && external_owner c)
      owner_finding findings in
  let findings :=
    append_if (high_direct_web_perms t && truthy (direct_web_assignments c))
      (web_finding (direct_web_assignments c)) findings in
  over ← py_gt (unique_items c) (high_unique_items_gt t);
  let findings := append_if over (items_finding (unique_items c)) findings in
  reached ← py_ge (external_identities c) (medium_external_item_identities_gte t);
  let findings :=
    append_if reached (identities_finding (external_identities c)) findings in
  let findings :=
    append_if (medium_group_without_owner t && truthy (groups_without_owner c))
      (groups_finding (groups_without_owner c)) findings in
  Ok findings.

(** Lines 129-132. *)
Definition risk_lines (findings : list finding) : list string :=
  match findings with
  | [] => ["- No risks met the configured thresholds."]
  | _ => map (λ f : finding, "- **" ++ f.1 ++ "** " ++ em_dash ++ " " ++ f.2) findings
  end.

Definition head_lines (now : string) (c : counts) : list string :=
  [ "# SharePoint Audit " ++ em_dash ++ " Findings & Recommendations"; "";
    "_Generated: " ++ now ++ "_"; "";
    "## Summary"; "";
    "- Items with unique permissions: **" ++ py_str rt (unique_items c) ++ "**";
    "- External identities (item-level): **" ++ py_str rt (external_identities c) ++ "**";
    "- Direct web assignments: **" ++ py_str rt (direct_web_assignments c) ++ "**";
    "- Groups without owners: **" ++ py_str rt (groups_without_owner c) ++ "**";
    "- Anyone/Everyone at web/site: **" ++ py_str rt (PBool (anyone_or_everyone c)) ++ "**";
    "- External Owner present: **" ++ py_str rt (PBool (external_owner c)) ++ "**"; "";
    "## Risk Ratings"; "" ].

Definition tail_lines : list string :=
  [ ""; "## Recommendations (PnP Snippets)"; "";
    "- Review anonymous sharing & site sharing settings.";
    "- Remove direct web permissions where unjustified.";
    "- Reduce item-level unique permissions where possible.";
    "- Ensure each SharePoint group has an owner."; ""; "---";
    "_PII notice: contains user emails and access data. Handle per policy._" ].

(** Lines 117-138: the list [lines]. *)
Definition report_lines (now : string) (c : counts) (findings : list finding) : list string :=
  head_lines now c ++ risk_lines findings ++ tail_lines.

(** Lines 140-144. *)
Definition html_body (md : string) : string :=
  match markdown_html rt md with
  | Ok body => body
  | Raise _ =>
      "<pre>" ++ replace_char "<"%char "&lt;" (replace_char "&"%char "&amp;" md) ++ "</pre>"
  end.

(** Lines 139-146. *)
Definition render (now : string) (c : counts) (findings : list finding) : string * string :=
  let md := String.concat nl (report_lines now c findings) in
  let html :=
    "<!doctype html><html><head><meta charset='utf-8'><title>SharePoint Audit</title><style>"
    ++ CSS ++ "</style></head><body>" ++ html_body md ++ "</body></html>" in
  (md, html).

(** Lines 94-146, from the parsed artifact on. [now] is what
    [datetime.now().isoformat(timespec='seconds')] returns. *)
Definition analyze_data (now : string) (data : pyval) (t : thresholds)
    (internal_domains_supplied : bool) : result (string * string) :=
  c ← normalize data;
  findings ← classify t c;
  Ok (render now c findings).

(** [analyze], lines 92-146. The function of the source reads the file
    system and the clock; here the tree and the time it would read are
    arguments. *)
Definition analyze (tree : Fs.fs) (now : string) (json_path : Fs.path) (t : thresholds)
    (internal_domains_supplied : bool) : result (string * string) :=
  text ← Fs.read_text json_path tree;
  data ← json_loads rt text;
  analyze_data now data t internal_domains_supplied.

End WithRuntime.

(** The six keys of the artifact that [normalize] reads. *)
Definition metric_keys : list string :=
  [ "itemsWithUniquePermissions"; "externalUsers"; "webDirectAssignments";
    "orphanedGroups"; "anyoneOrEveryoneAtWeb"; "externalOwnerPresent" ].

(** Findings by rule: the severity and the fixed start of the message. *)
Definition of_kind (severity lead : string) (f : finding) : bool :=
  String.eqb f.1 severity && starts_with lead f.2.
Definition is_web_finding : finding → bool :=
  of_kind "High" "Direct user permissions at web scope: ".
Definition is_items_finding : finding → bool :=
  of_kind "High" "Items with unique permissions: ".
Definition is_identities_finding : finding → bool :=
  of_kind "Medium" "External identities with item-level access: ".

End Audit.

(** ** Site identifiers: directory names and the site list *)

Module Sites.

Definition in_range (lo hi : N) (c : ascii) : bool :=
  ((lo <=? N_of_ascii c) && (N_of_ascii c <=? hi))%N.

Definition is_alnum (c : ascii) : bool :=
  in_range 97 122 c || in_range 65 90 c || in_range 48 57 c.

(** the class [[a-zA-Z0-9._-]] *)
Definition in_class (c : ascii) : bool :=
  is_alnum c || Ascii.eqb c "." || Ascii.eqb c "_" || Ascii.eqb c "-".

(** [s.lstrip(chars)], [s.rstrip(chars)], [s.strip(chars)] for the
    characters that satisfy [drop] *)
Fixpoint lstrip (drop : ascii → bool) (s : string) : string :=
  match s with
  | EmptyString => EmptyString
  | String c r => if drop c then lstrip drop r else s
  end.

Fixpoint rstrip (drop : ascii → bool) (s : string) : string :=
  match s with
  | EmptyString => EmptyString
  | String c r =>
      match rstrip drop r with
      | EmptyString => if drop c then EmptyString else String c EmptyString
      | r' => String c r'
      end
  end.

Definition strip (drop : ascii → bool) (s : string) : string :=
  rstrip drop (lstrip drop s).

(** [re.sub(r"[^a-zA-Z0-9._-]+", "_", s)]: scanning from the left, every
    maximal run of characters outside the class becomes one underscore.
    [in_run] tells that the character before was outside the class. *)
Fixpoint sub_runs (in_run : bool) (s : string) : string :=
  match s with
  | EmptyString => EmptyString
  | String c r =>
      if in_class c then String c (sub_runs false r)
      else if in_run then sub_runs true r
      else String "_" (sub_runs true r)
  end.

(** Line 181: [safe = re.sub(r"[^a-zA-Z0-9._-]+", "_", site.strip("/"))] *)
Definition safe_name (site : string) : string :=
  sub_runs false (strip (Ascii.eqb "/") site).


(** Whitespace within ASCII: tab, line feed, vertical tab, form feed,
    carriage return, the four separators 28-31 and the space. *)
Definition is_space (c : ascii) : bool :=
  in_range 9 13 c || in_range 28 32 c.

(** Whitespace of [str.strip()] outside ASCII, by the bytes of its UTF-8
    form: U+0085 and U+00A0 in two bytes; U+1680, U+2000 to U+200A, U+2028,
    U+2029, U+202F, U+205F and U+3000 in three. *)
Definition is_space2 (a b : ascii) : bool :=
  Ascii.eqb a "194" && (Ascii.eqb b "133" || Ascii.eqb b "160").

Definition is_space3 (a b c : ascii) : bool :=
  (Ascii.eqb a "225" && Ascii.eqb b "154" && Ascii.eqb c "128")
  || (Ascii.eqb a "226" && Ascii.eqb b "128"
      && (in_range 128 138 c || in_range 168 169 c || Ascii.eqb c "175"))
  || (Ascii.eqb a "226" && Ascii.eqb b "129" && Ascii.eqb c "159")
  || (Ascii.eqb a "227" && Ascii.eqb b "128" && Ascii.eqb c "128").

(** a text that is one whitespace character *)
Definition is_space_char (s : string) : bool :=
  match s with
  | String a EmptyString => is_space a
  | String a (String b EmptyString) => is_space2 a b
  | String a (String b (String c EmptyString)) => is_space3 a b c
  | _ => false
  end.

(** [s.lstrip()] *)
Fixpoint lstrip_space (s : string) : string :=
  match s with
  | EmptyString => EmptyString
  | String a r =>
      if is_space a then lstrip_space r
      else
        match r with
        | String b r' =>
            if is_space2 a b then lstrip_space r'
            else
              match r' with
              | String c r'' => if is_space3 a b c then lstrip_space r'' else s
              | EmptyString => s
              end
        | EmptyString => s
        end
  end.

(** [s.rstrip()], from the right: with the tail stripped, what is left is
    dropped when it is one whitespace character. *)
Fixpoint rstrip_space (s : string) : string :=
  match s with
  | EmptyString => EmptyString
  | String a r =>
      let left := String a (rstrip_space r) in
      if is_space_char left then EmptyString else left
  end.

(** [s.strip()] *)
Definition strip_space (s : string) : string := rstrip_space (lstrip_space s).

(** a text that begins with a whitespace character *)
Definition lead_space (s : string) : bool :=
  match s with
  | String a r =>
      is_space a
      || match r with
         | String b r' =>
             is_space2 a b
             || match r' with
                | String c _ => is_space3 a b c
                | EmptyString => false
                end
         | EmptyString => false
         end
  | EmptyString => false
  end.

(** A row of [csv.DictReader]: the columns that hold a string. A column
    missing from the header or from a short row is absent. *)
Definition row : Type := gmap string string.

(** Lines 176-177: the body of the loop over the rows. *)
Definition add_row (sites : list string) (r : row) : list string :=
  match r !! "SiteUrl" with
  | Some url => if negb (String.eqb url "") then sites ++ [strip_space url] else sites
  | None => sites
  end.

Definition sites_of_rows (rows : list row) : list string :=
  foldl add_row [] rows.

(** An entry is blank when nothing but whitespace is in it. *)
Definition blank (url : string) : bool :=
  String.eqb (strip_space url) "".

(** What [add_row] keeps of a row. *)
Definition kept (r : row) : option string :=
  url ← r !! "SiteUrl";
  if String.eqb url "" then None else Some (strip_space url).

(** The maximal runs of a string: its consecutive blocks of characters
    that are all inside or all outside the class, each tagged with which. *)
Fixpoint runs (s : string) : list (bool * string) :=
  match s with
  | EmptyString => []
  | String c r =>
      match runs r with
      | (b, blk) :: rest =>
          if Bool.eqb b (in_class c) then (b, String c blk) :: rest
          else (in_class c, String c EmptyString) :: (b, blk) :: rest
      | [] => [(in_class c, String c EmptyString)]
      end
  end.



Fixpoint all_chars (p : ascii → bool) (s : string) : bool :=
  match s with
  | EmptyString => true
  | String c r => p c && all_chars p r
  end.


(** neighbouring runs differ in their tag; a run is not empty and all its
    characters are on the side of the class its tag says *)
Fixpoint alternating (l : list (bool * string)) : bool :=
  match l with
  | (b, _) :: (((b', _) :: _) as rest) => negb (Bool.eqb b b') && alternating rest
  | _ => true
  end.

Definition uniform (r : bool * string) : bool :=
  negb (String.eqb r.2 "") && all_chars (λ c, Bool.eqb (in_class c) r.1) r.2.

End Sites.

(** ** Run orchestrator

    [main] and the functions it calls, lines 19-82 and 148-205. The
    orchestrator acts on the output tree and on the host, and what it does
    is recorded, in order, as a list of events. An external command touches
    the output tree in one way only: it may leave text at the path it was
    told to emit JSON to. *)

Module Agent.
Import Fs Audit Sites.

(** The parsed command line. *)
Record args := {
  tenant_id : string;
  app_id : string;
  pfx_path : string;
  pfx_pass_env : string;
  script_path : string;
  site_url : option string;
  csv : option string;
  internal_domains : list string;
  output : string;
  max_items : Z;
  batch_size : Z;
  time_budget_minutes : Z;
}.

(** the command line [a] with another list after [--internal-domains] *)
Definition with_internal_domains (domains : list string) (a : args) : args := {|
  tenant_id := tenant_id a;
  app_id := app_id a;
  pfx_path := pfx_path a;
  pfx_pass_env := pfx_pass_env a;
  script_path := script_path a;
  site_url := site_url a;
  csv := csv a;
  internal_domains := domains;
  output := output a;
  max_items := max_items a;
  batch_size := batch_size a;
  time_budget_minutes := time_budget_minutes a;
|}.

(** A process that ran to its end. *)
Record completed := {
  returncode : Z;
  out : string;
  err : string;
}.

(** [Popen] followed by [communicate]: it returns or raises, and the
    command may have emitted its JSON text either way. *)
Record spawned := {
  ended : result completed;
  emitted : option string;
}.

(** The host of a run, over the states [W] of whatever lies outside the
    process: the environment, [Path.expanduser().resolve()], the clock in
    the two formats the program asks for, the rows [csv.DictReader] reads
    from a file, and the processes. The two script texts are the f-strings
    of lines 49-63 and 72-80 after [textwrap.dedent], as functions of what
    they interpolate, in the order of first use: the password with its
    quotes doubled comes first, the rest follows the source. *)
Record Host (W : Type) := {
  POWERSHELL : string;
  environ_get : string → option string;
  resolve : string → path;
  ts : W → string;
  now_iso : W → string;
  read_csv : string → W → result (list row);
  grant_script : string → string → string → string → string → string → string → string;
  audit_script :
    string → string → string → string → string → string → string → Z → Z → string → string;
  popen : list string → option Z → W → spawned * W;
}.
Arguments POWERSHELL {W}.
Arguments environ_get {W}.
Arguments resolve {W}.
Arguments ts {W}.
Arguments now_iso {W}.
Arguments read_csv {W}.
Arguments grant_script {W}.
Arguments audit_script {W}.
Arguments popen {W}.

Inductive event :=
| Stdout (text : string)
| Stderr (text : string)
| Mkdir (p : path)
| Spawn (cmd : list string) (timeout : option Z)
| WriteText (p : path) (text : string).

Inductive stage := Grant | Audit | Analyze.

(** How the loop body ended for a site. *)
Inductive outcome :=
| Done
| Failed (st : stage) (e : exn).

(** How [main] left. *)
Inductive run_end :=
| Exited (msg : string)
| Completed (outcomes : list outcome).

(** Lines 40-45. The pattern is anchored at the start; the class of the
    tenant name has no dot, so the longest run is the only candidate. *)
Definition is_tenant_char (c : ascii) : bool :=
  is_alnum c || Ascii.eqb c "-".

Fixpoint span (keep : ascii → bool) (s : string) : string * string :=
  match s with
  | EmptyString => (EmptyString, EmptyString)
  | String c r =>
      if keep c then let (a, b) := span keep r in (String c a, b)
      else (EmptyString, s)
  end.

Fixpoint strip_prefix (p s : string) : option string :=
  match p, s with
  | EmptyString, _ => Some s
  | String a p', String b s' => if Ascii.eqb a b then strip_prefix p' s' else None
  | String _ _, EmptyString => None
  end.

Definition match_tenant (site_url : string) : option string :=
  rest ← strip_prefix "https://" site_url;
  let (tenant, rest) := span is_tenant_char rest in
  if String.eqb tenant "" then None
  else _ ← strip_prefix ".sharepoint.com/" rest; Some tenant.

Definition derive_admin_url (site_url : string) : result string :=
  match match_tenant site_url with
  | Some tenant => Ok ("https://" ++ tenant ++ "-admin.sharepoint.com")
  | None => Raise (ValueError ("Unsupported SharePoint URL: " ++ site_url))
  end.

Definition stage_name (st : stage) : string :=
  match st with Grant => "Grant" | Audit => "Audit" | Analyze => "Analyze" end.

Section WithHost.
Context {W : Type} (rt : Runtime) (h : Host W).

(** A step of the program: from the tree and the host state to the events
    it caused, the tree and host state it leaves, and its value or the
    exception it raised. What happened before a raise stays. *)
Definition M (A : Type) : Type := fs → W → list event * fs * W * result A.

Definition ret {A} (a : A) : M A := λ t w, ([], t, w, Ok a).
Definition raise {A} (e : exn) : M A := λ t w, ([], t, w, Raise e).
Definition bind {A B} (m : M A) (f : A → M B) : M B := λ t w,
  match m t w with
  | (ev, t1, w1, Ok a) =>
      match f a t1 w1 with (ev', t2, w2, r) => ((ev ++ ev')%list, t2, w2, r) end
  | (ev, t1, w1, Raise e) => (ev, t1, w1, Raise e)
  end.

(** [try: m  except Exception as e: ...], with the exception handed to the
    continuation. Every [exn] is an [Exception]. *)
Definition try {A} (m : M A) : M (result A) := λ t w,
  match m t w with
  | (ev, t1, w1, r) => (ev, t1, w1, Ok r)
  end.

Definition lift {A} (r : result A) : M A := λ t w, ([], t, w, r).
Definition emit (e : event) : M unit := λ t w, ([e], t, w, Ok ()).
Definition print (text : string) : M unit := emit (Stdout text).
Definition eprint (text : string) : M unit := emit (Stderr text).

Definition mkdir (p : path) : M unit := λ t w,
  let (t', r) := mkdir_p p t in ([Mkdir p], t', w, r).

Definition write (p : path) (text : string) : M unit := λ t w,
  let (t', r) := write_text p text t in ([WriteText p text], t', w, r).

(** [Popen(cmd, ...)] and [communicate(timeout)]. [emit_to] is the path the
    command was told to emit its JSON to, if it was told any. *)
Definition spawn (cmd : list string) (timeout : option Z) (emit_to : option path)
    : M completed := λ t w,
  let (p, w') := popen h cmd timeout w in
  let t' :=
    match emit_to, emitted p with
    | Some target, Some text => store target text t
    | _, _ => t
    end in
  ([Spawn cmd timeout], t', w', ended p).

#[local] Instance M_ret : MRet M := @ret.
#[local] Instance M_bind : MBind M := λ A B f m, bind m f.

(** Lines 19-24. *)
Definition run (cmd : list string) (timeout : option Z) (emit_to : option path)
    : M string :=
  p ← spawn cmd timeout emit_to;
  if negb (returncode p =? 0)
  then raise (CmdError ("Command failed (" ++ pretty (returncode p) ++ "): "
                        ++ String.concat " " cmd ++ nl ++ "STDERR:" ++ nl ++ err p
                        ++ nl ++ "STDOUT:" ++ nl ++ out p))
  else mret (out p).

(** Lines 47-64. *)
Definition grant_sites_selected (site_url tenant app pfx pfx_pass display_name : string)
    : M string :=
  admin_url ← lift (derive_admin_url site_url);
  let ps :=
    grant_script h (replace_char "'" "''" pfx_pass) admin_url tenant app pfx
      site_url display_name in
  run [POWERSHELL h; "-NoProfile"; "-Command"; ps] None None.

(** Lines 66-82; the value is the path under the key [json]. *)
Definition run_audit_script (script site_url tenant app pfx pfx_pass : string)
    (internal : list string) (out_dir : path) (max_items batch_size minutes : Z)
    : M path :=
  let emit_json := (out_dir ++ ["audit.json"])%list in
  let internal := String.concat " " (map (λ d, "'" ++ d ++ "'") internal) in
  let sec_pass := replace_char "'" "''" pfx_pass in
  let ps :=
    audit_script h sec_pass script site_url tenant app pfx (path_str emit_json)
      max_items batch_size internal in
  _ ← run [POWERSHELL h; "-NoProfile"; "-Command"; ps] (Some (minutes * 60))
        (Some emit_json);
  mret emit_json.

(** The call of [analyze] at line 199, reading the tree and the clock. *)
Definition analyze_artifact (json_path : path) (internal_domains_supplied : bool)
    : M (string * string) := λ t w,
  ([], t, w, analyze rt t (now_iso h w) json_path DEFAULT_THRESHOLDS internal_domains_supplied).

Definition site_dir_of (run_dir : path) (site : string) : path :=
  (run_dir ++ ["site-" +:+ safe_name site])%list.

Definition failed_line (st : stage) (site : string) (e : exn) : string :=
  stage_name st ++ " failed for " ++ site ++ ": " ++ exn_str e.

(** Lines 185-186, 191-193 and 198-201: the bodies of the three [try]
    blocks. *)
Definition grant_stage (a : args) (pfx_pass site : string) : M string :=
  _ ← print ("[grant] " ++ site);
  grant_sites_selected site (tenant_id a) (app_id a) (pfx_path a) pfx_pass "Audit Agent".

Definition audit_stage (a : args) (pfx_pass site : string) (site_dir : path) : M path :=
  _ ← print ("[audit] " ++ site);
  run_audit_script (script_path a) site (tenant_id a) (app_id a) (pfx_path a)
    pfx_pass (internal_domains a) site_dir (max_items a) (batch_size a)
    (time_budget_minutes a).

Definition analyze_stage (a : args) (site : string) (site_dir json : path) : M unit :=
  _ ← print ("[analyze] " ++ site);
  reports ← analyze_artifact json
              (match internal_domains a with [] => false | _ => true end);
  _ ← write (site_dir ++ ["report.md"])%list reports.1;
  write (site_dir ++ ["report.html"])%list reports.2.

(** Lines 181-203: the body of the loop over the sites. Its value tells
    how the body ended; a raise is an exception no handler of the body
    took. *)
Definition process_site (a : args) (pfx_pass : string) (run_dir : path) (site : string)
    : M outcome :=
  let site_dir := site_dir_of run_dir site in
  _ ← mkdir site_dir;
  granted ← try (grant_stage a pfx_pass site);
  match granted with
  | Raise e => _ ← eprint (failed_line Grant site e); mret (Failed Grant e)
  | Ok _ =>
      audited ← try (audit_stage a pfx_pass site site_dir);
      match audited with
      | Raise e => _ ← eprint (failed_line Audit site e); mret (Failed Audit e)
      | Ok json =>
          analyzed ← try (analyze_stage a site site_dir json);
          match analyzed with
          | Raise e => _ ← eprint (failed_line Analyze site e); mret (Failed Analyze e)
          | Ok _ => mret Done
          end
      end
  end.

(** Line 180: [for site in sites]. *)
Fixpoint for_sites (a : args) (pfx_pass : string) (run_dir : path) (sites : list string)
    : M (list outcome) :=
  match sites with
  | [] => mret []
  | site :: rest =>
      o ← process_site a pfx_pass run_dir site;
      os ← for_sites a pfx_pass run_dir rest;
      mret (o :: os)
  end.

(** Lines 171-177: the site list, from [--site-url] or from the rows of the
    file given as [--csv]. *)
Definition site_list (a : args) (w : W) : result (list string) :=
  let from_csv : result (list string) :=
    match csv a with
    | None => Raise (TypeError "expected str, bytes or os.PathLike object, not NoneType")
    | Some file => rows ← read_csv h file w; Ok (sites_of_rows rows)
    end in
  match site_url a with
  | Some url => if negb (String.eqb url "") then Ok [url] else from_csv
  | None => from_csv
  end.

Definition arrow : string := "→".

(** Lines 164-205. The value is how [main] left: through [sys.exit] with a
    message, or past its last line. *)
Definition main (a : args) : M run_end :=
  match environ_get h (pfx_pass_env a) with
  | None | Some EmptyString => mret (Exited "ERROR: PFX password env var not set")
  | Some pfx_pass =>
      let out_root := resolve h (output a) in
      _ ← mkdir out_root;
      run_dir ← (λ t w, ([], t, w, Ok (out_root ++ [ts h w])%list));
      _ ← mkdir (run_dir ++ ["logs"])%list;
      sites ← (λ t w, ([], t, w, site_list a w));
      match sites with
      | [] => mret (Exited "No sites provided.")
      | _ =>
          outcomes ← for_sites a pfx_pass run_dir sites;
          _ ← print (nl ++ "Run complete " ++ arrow ++ " " ++ path_str run_dir);
          mret (Completed outcomes)
      end
  end.

End WithHost.

(** The exit status of the process: [sys.exit] with a message and an
    exception nobody took both give 1. *)
Definition exit_status (r : result run_end) : Z :=
  match r with Ok (Completed _) => 0 | _ => 1 end.

End Agent.

(** ** What a run shows

    The events of a run by kind, the paths of a site, and what one pass
    through the loop body leaves behind; the statements about the
    orchestrator are written with these. *)

Module Observe.
Import Fs Audit Sites Agent.
#[local] Open Scope list_scope.

(** No regular file lies on the way to the run directory or directly in
    it, and no directory lies two levels below it, where the artifact and
    the reports of a site go. *)
Definition unobstructed (run_dir : path) (t : fs) : Prop :=
  (∀ f x, f ∈ dom (files t) → ¬ f `prefix_of` (run_dir ++ [x]))
  ∧ (∀ x y, run_dir ++ [x; y] ∉ dirs t).

Definition stdout_of (ev : list event) : list string :=
  omap (λ e, match e with Stdout s => Some s | _ => None end) ev.
Definition stderr_of (ev : list event) : list string :=
  omap (λ e, match e with Stderr s => Some s | _ => None end) ev.
Definition written (ev : list event) : list (path * string) :=
  omap (λ e, match e with WriteText p text => Some (p, text) | _ => None end) ev.
Definition spawns (ev : list event) : list (list string) :=
  omap (λ e, match e with Spawn cmd _ => Some cmd | _ => None end) ev.

(** The lines that announce the stages of a site, in the order of the
    stages; a stage that failed was the [n]-th to start. *)
Definition stage_markers (site : string) : list string :=
  [ "[grant] " +:+ site; "[audit] " +:+ site; "[analyze] " +:+ site ].

Definition stage_number (st : stage) : nat :=
  match st with Grant => 1 | Audit => 2 | Analyze => 3 end.

Definition report_md (site_dir : path) : path := site_dir ++ ["report.md"].
Definition report_html (site_dir : path) : path := site_dir ++ ["report.html"].
Definition audit_json (site_dir : path) : path := site_dir ++ ["audit.json"].

(** Nothing keeps the directory [p] from being made: no name on the way is
    too long, no regular file is on the way, and the system refuses nothing
    on it. *)
Definition clear_way (t : fs) (p : path) : bool :=
  forallb fits p
  && forallb (λ q, bool_decide (q ∉ dom (files t))
                   && match refused t q with None => true | Some _ => false end)
       (parents_and_self p).

(** The events of one pass through the loop body for [site], which ended
    as [o].
    - The directory of the site is made first, then the grant stage starts.
    - When all went well the three stages started, nothing went to the error
      stream, both commands ran and the two reports were written.
    - When stage [st] failed, the stages up to [st] started and none after
      it, the last event is the one line on the error stream, which names
      the stage, the site and the cause. No write was tried unless it was
      the analyze stage that failed; then the writes that were tried are
      none, the one of [report.md], or both. *)
Definition block_shape (run_dir : path) (site : string) (o : outcome)
    (ev : list event) : Prop :=
  let sd := site_dir_of run_dir site in
  (∃ rest, ev = Mkdir sd :: Stdout ("[grant] " +:+ site) :: rest)
  ∧ match o with
    | Done =>
        stdout_of ev = stage_markers site
        ∧ stderr_of ev = []
        ∧ length (spawns ev) = 2%nat
        ∧ (written ev).*1 = [report_md sd; report_html sd]
    | Failed st e =>
        stdout_of ev = take (stage_number st) (stage_markers site)
        ∧ stderr_of ev = [failed_line st site e]
        ∧ last ev = Some (Stderr (failed_line st site e))
        ∧ (length (spawns ev) ≤ stage_number st)%nat
        ∧ (st ≠ Analyze → written ev = [])
        ∧ (written ev).*1 `prefix_of` [report_md sd; report_html sd]
    end.

(** What the run leaves of a site in the tree [t'] at its end. *)
Definition site_left (run_dir : path) (t' : fs) (site : string) (o : outcome)
    (ev : list event) : Prop :=
  let sd := site_dir_of run_dir site in
  block_shape run_dir site o ev
  ∧ sd ∈ dirs t'
  ∧ (o = Done → is_Some (files t' !! report_md sd) ∧ is_Some (files t' !! report_html sd)).

End Observe.

(** ** A small host to run the definitions on

    A runtime that parses two JSON texts and has no Markdown module, and a
    host whose commands answer by what their script says. *)

Module Demo.
Import Fs Audit Sites Agent.

Definition runtime : Runtime := {|
  json_loads := λ s,
    if String.eqb s "{}" then Ok (PDict ∅)
    else if String.eqb s "null" then Ok PNone
    else Raise (JSONDecodeError "Expecting value: line 1 column 1 (char 0)");
  markdown_html := λ _, Raise (OSError "No module named 'markdown'");
  repr_other := λ _, "<repr>";
|}.

Definition exit_with (code : Z) (text : option string) : spawned :=
  {| ended := Ok {| returncode := code; out := ""; err := "" |}; emitted := text |}.

(** Every command succeeds and an audit leaves an empty JSON object, but:
    the audit of a site under [/sites/a] exits with 1 and leaves nothing,
    the one of a site under [/sites/n] leaves the text [null], and the one
    of a site under [/sites/m] leaves nothing though it exits with 0. *)
Definition react (cmd : list string) : spawned :=
  match cmd !! 3%nat with
  | Some script =>
      if starts_with "audit https://contoso.sharepoint.com/sites/a" script
      then exit_with 1 None
      else if starts_with "audit https://contoso.sharepoint.com/sites/n" script
      then exit_with 0 (Some "null")
      else if starts_with "audit https://contoso.sharepoint.com/sites/m" script
      then exit_with 0 None
      else if starts_with "audit" script then exit_with 0 (Some "{}")
      else exit_with 0 None
  | None => exit_with 2 None
  end.

Definition host (rows : list row) : Host nat := {|
  POWERSHELL := "pwsh";
  environ_get := λ name, if String.eqb name "PFX_PASS" then Some "secret" else None;
  resolve := λ s, [s];
  ts := λ _, "2026-01-01_00-00-00";
  now_iso := λ _, "2026-01-01T00:00:00";
  read_csv := λ _ _, Ok rows;
  grant_script := λ _ _ _ _ _ site _, "grant " ++ site;
  audit_script := λ _ _ site _ _ _ _ _ _ _, "audit " ++ site;
  popen := λ cmd _ n, (react cmd, S n);
|}.

Definition arguments : args := {|
  tenant_id := "contoso.onmicrosoft.com";
  app_id := "00000000-0000-0000-0000-000000000000";
  pfx_path := "agent.pfx";
  pfx_pass_env := "PFX_PASS";
  script_path := "audit.ps1";
  site_url := None;
  csv := Some "sites.csv";
  internal_domains := ["contoso.com"];
  output := "out";
  max_items := 50000;
  batch_size := 200;
  time_budget_minutes := 60;
|}.

Definition site_a : string := "https://contoso.sharepoint.com/sites/a".
Definition site_b : string := "https://contoso.sharepoint.com/sites/b".

Definition site_n : string := "https://contoso.sharepoint.com/sites/n".
Definition site_m : string := "https://contoso.sharepoint.com/sites/m".

Definition rows_ab : list row :=
  [ {[ "SiteUrl" := site_a ]}; {[ "SiteUrl" := site_b ]} ].

Definition rows_nmb : list row :=
  [ {[ "SiteUrl" := site_n ]}; {[ "SiteUrl" := site_m ]}; {[ "SiteUrl" := site_b ]} ].

Definition run_dir : path := ["out"; "2026-01-01_00-00-00"].



(** An artifact whose count of web assignments is a text with a lone
    surrogate escape, what [json.loads] makes of it, and a host whose audit
    leaves that artifact. *)
Definition dq : string := String "034" "".

Definition artifact_s : string :=
  "{" ++ dq ++ "metrics" ++ dq ++ ": {" ++ dq ++ "webDirectAssignments" ++ dq ++ ": "
  ++ dq ++ "\ud800" ++ dq ++ "}}".

Definition surrogate : string := String "237" (String "160" (String "128" "")).

Definition runtime_s : Runtime := {|
  json_loads := λ s,
    if String.eqb s artifact_s
    then Ok (PDict {[ "metrics" := PDict {[ "webDirectAssignments" := PStr surrogate ]} ]})
    else json_loads runtime s;
  markdown_html := markdown_html runtime;
  repr_other := repr_other runtime;
|}.

Definition react_s (cmd : list string) : spawned :=
  match cmd !! 3%nat with
  | Some script =>
      if starts_with "audit" script then exit_with 0 (Some artifact_s) else exit_with 0 None
  | None => exit_with 2 None
  end.

Definition host_s : Host nat := {|
  POWERSHELL := POWERSHELL (host []);
  environ_get := environ_get (host []);
  resolve := resolve (host []);
  ts := ts (host []);
  now_iso := now_iso (host []);
  read_csv := read_csv (host []);
  grant_script := grant_script (host []);
  audit_script := audit_script (host []);
  popen := λ cmd _ n, (react_s cmd, S n);
|}.

Definition site_s : string := "https://contoso.sharepoint.com/sites/s".

(** A system that will not create a [report.html]: the quota is used up
    once a site has its first report. *)
Definition tight : fs := {|
  dirs := {[ [] ]};
  files := ∅;
  refused := λ p,
    if String.eqb (default "" (last p)) "report.html"
    then Some ("[Errno 122] Disk quota exceeded: '" ++ path_str p ++ "'")
    else None;
|}.

End Demo.

(** ** More to say about the analysis

    What the statements on the order of the findings, on the counts a
    report can be made of, and on the fallback of the hypertext form are
    written with. *)

Module Reading.
Import Audit Sites.

(** the values Python orders against an int *)
Definition numeric (v : pyval) : bool :=
  match v with
  | PInt _ | PBool _ | PFloat _ => true
  | _ => false
  end.

(** The findings of the six rules for the counts [c], in the order of the
    rules. *)
Definition rule_findings (rt : Runtime) (c : counts) : list finding :=
  [ anyone_finding; owner_finding;
    web_finding rt (direct_web_assignments c);
    items_finding rt (unique_items c);
    identities_finding rt (external_identities c);
    groups_finding rt (groups_without_owner c) ].

(** Critical above High above Medium. *)
Definition severity_rank (severity : string) : nat :=
  if String.eqb severity "Critical" then 3
  else if String.eqb severity "High" then 2
  else if String.eqb severity "Medium" then 1
  else 0.

(** no number of the list is above the one before it *)
Fixpoint never_rises (ranks : list nat) : bool :=
  match ranks with
  | a :: ((b :: _) as rest) => (b <=? a)%nat && never_rises rest
  | _ => true
  end.

Definition is_anyone_finding (f : finding) : bool :=
  of_kind "Critical" "'Anyone/Everyone' access detected" f.
Definition is_owner_finding (f : finding) : bool :=
  of_kind "Critical" "Guest/external user with Owner role" f.
Definition is_groups_finding (f : finding) : bool :=
  of_kind "Medium" "SharePoint groups without owners: " f.

(** Which of the six rules left a finding in [fs]. *)
Definition rules_fired (fs : list finding) : list bool :=
  [ existsb is_anyone_finding fs; existsb is_owner_finding fs;
    existsb is_web_finding fs; existsb is_items_finding fs;
    existsb is_identities_finding fs; existsb is_groups_finding fs ].

(** An artifact as the normalizer expects it, made of integer counts and
    two flags. *)
Definition artifact_of (u e d g : Z) (a o : bool) : pyval :=
  PDict {[ "metrics" :=
    PDict (<[ "itemsWithUniquePermissions" := PInt u ]>
          (<[ "externalUsers" := PInt e ]>
          (<[ "webDirectAssignments" := PInt d ]>
          (<[ "orphanedGroups" := PInt g ]>
          (<[ "anyoneOrEveryoneAtWeb" := PBool a ]>
          (<[ "externalOwnerPresent" := PBool o ]> ∅)))))) ]}.

(** The plain form of what [analyze] returns. *)
Definition plain (r : result (string * string)) : result string :=
  match r with
  | Ok reports => Ok reports.1
  | Raise e => Raise e
  end.

(** the runtime [rt] with another Markdown renderer *)
Definition with_markdown (render : string → result string) (rt : Runtime) : Runtime := {|
  json_loads := json_loads rt;
  markdown_html := render;
  repr_other := repr_other rt;
|}.

(** Reading the two entities of the fallback back. *)
Fixpoint unescape (s : string) : string :=
  match s with
  | String "&" (String "l" (String "t" (String ";" r))) => String "<" (unescape r)
  | String "&" (String "a" (String "m" (String "p" (String ";" r)))) =>
      String "&" (unescape r)
  | String c r => String c (unescape r)
  | EmptyString => EmptyString
  end.

End Reading.

(** ** What a run does to the outside

    The events a run may cause, and what its two streams hold, told from
    the site list and from how the passes ended. *)

Module Conduct.
Import Fs Sites Agent Observe.
#[local] Open Scope list_scope.

(** The three files of a site: the artifact and the two reports. *)
Definition site_paths (run_dir : path) (site : string) : list path :=
  let sd := site_dir_of run_dir site in
  [audit_json sd; report_md sd; report_html sd].

(** The form of every command of lines 64 and 81, with the two time
    limits. *)
Definition powershell_command {W} (h : Host W) (a : args) (cmd : list string)
    (limit : option Z) : Prop :=
  (∃ ps, cmd = [POWERSHELL h; "-NoProfile"; "-Command"; ps])
  ∧ (limit = None ∨ limit = Some (time_budget_minutes a * 60)).

(** What the pass for [site] may do. *)
Definition site_event {W} (h : Host W) (a : args) (run_dir : path) (site : string)
    (e : event) : Prop :=
  let sd := site_dir_of run_dir site in
  match e with
  | Mkdir p => p = sd
  | WriteText p _ => p = report_md sd ∨ p = report_html sd
  | Spawn cmd limit => powershell_command h a cmd limit
  | Stdout _ | Stderr _ => True
  end.

(** What a run with the output directory [out_root], started at [stamp],
    may do for the sites [sites]. *)
Definition run_event {W} (h : Host W) (a : args) (out_root : path) (stamp : string)
    (sites : list string) (e : event) : Prop :=
  let run_dir := out_root ++ [stamp] in
  match e with
  | Mkdir p =>
      p = out_root ∨ p = run_dir ++ ["logs"]
      ∨ ∃ site, site ∈ sites ∧ p = site_dir_of run_dir site
  | WriteText p _ =>
      ∃ site, site ∈ sites
        ∧ (p = report_md (site_dir_of run_dir site)
           ∨ p = report_html (site_dir_of run_dir site))
  | Spawn cmd limit => powershell_command h a cmd limit
  | Stdout _ | Stderr _ => True
  end.

(** The sites of a run; none when the list cannot be read. *)
Definition listed_sites {W} (h : Host W) (a : args) (w : W) : list string :=
  match site_list h a w with
  | Ok sites => sites
  | Raise _ => []
  end.



(** The last line of a run that went through its sites. *)
Definition run_complete (run_dir : path) : event :=
  Stdout (nl +:+ "Run complete " +:+ arrow +:+ " " +:+ path_str run_dir).


End Conduct.

(** ** The shell, the time stamp and the quoting

    Lines 8-15 and 26, which the host above takes as given, over what the
    machine answers: [which] is [shutil.which], and the clock gives the
    fields of [datetime.now()]. *)

Module Programs.

(** Lines 8-13. [if p] takes an empty path for no path. *)
Fixpoint which_prog (which : string → option string) (cands : list string)
    : option string :=
  match cands with
  | [] => None
  | c :: rest =>
      match which c with
      | Some p => if negb (String.eqb p "") then Some p else which_prog which rest
      | None => which_prog which rest
      end
  end.

(** Line 15: [which_prog(["pwsh","powershell"]) or "pwsh"]. *)
Definition POWERSHELL (which : string → option string) : string :=
  match which_prog which ["pwsh"; "powershell"] with
  | Some p => if negb (String.eqb p "") then p else "pwsh"
  | None => "pwsh"
  end.

(** A candidate is found when [shutil.which] has a path for it that is not
    empty. *)
Definition found (which : string → option string) (c : string) : bool :=
  match which c with
  | Some p => negb (String.eqb p "")
  | None => false
  end.

(** The fields of a [datetime] that the stamp shows. *)
Record datetime := {
  year : Z;
  month : Z;
  day : Z;
  hour : Z;
  minute : Z;
  second : Z;
}.

(** The fields of a [datetime] are in these ranges; the year of a clock
    has four digits. *)
Definition valid (d : datetime) : bool :=
  (1000 <=? year d) && (year d <=? 9999) && (1 <=? month d) && (month d <=? 12)
  && (1 <=? day d) && (day d <=? 31) && (0 <=? hour d) && (hour d <=? 23)
  && (0 <=? minute d) && (minute d <=? 59) && (0 <=? second d) && (second d <=? 59).

Definition digit (n : Z) : ascii := ascii_of_N (48 + Z.to_N n).

(** [%m], [%d], [%H], [%M], [%S]: two digits; [%Y]: four for a year of
    four digits. *)
Definition pad2 (n : Z) : string :=
  String (digit (n / 10)) (String (digit (n mod 10)) EmptyString).

Definition pad4 (n : Z) : string := pad2 (n / 100) ++ pad2 (n mod 100).

(** Line 26: [strftime("%Y-%m-%d_%H-%M-%S")]. *)
Definition ts (now : datetime) : string :=
  pad4 (year now) ++ "-" ++ pad2 (month now) ++ "-" ++ pad2 (day now) ++ "_"
  ++ pad2 (hour now) ++ "-" ++ pad2 (minute now) ++ "-" ++ pad2 (second now).

(** Lines 50 and 71 double every quote of the password for the quoted
    string of the script. Reading such a string undoes it: two quotes are
    one, and a quote alone is the end, so no reading. *)
Fixpoint undouble (s : string) : option string :=
  match s with
  | EmptyString => Some EmptyString
  | String c r =>
      if Ascii.eqb c "'" then
        match r with
        | String c' r' => if Ascii.eqb c' "'" then String "'" <$> undouble r' else None
        | EmptyString => None
        end
      else String c <$> undouble r
  end.

End Programs.

(** * Properties *)

(** ** The normalizer, the classifier and the report *)

Module AuditFacts.
Import Audit.

Section Facts.
Context (rt : Runtime).

(** Line 94 gave a dict: the six entries of [counts], one by one. *)
Lemma normalize_dict (d m : gmap string pyval) :
  py_get (PDict d) "metrics" (PDict ∅) = Ok (PDict m) →
  normalize (PDict d) =
    Ok {| unique_items := py_or (default PNone (m !! "itemsWithUniquePermissions")) (PInt 0);
          external_identities := py_or (default PNone (m !! "externalUsers")) (PInt 0);
          direct_web_assignments := py_or (default PNone (m !! "webDirectAssignments")) (PInt 0);
          groups_without_owner := py_or (default PNone (m !! "orphanedGroups")) (PInt 0);
          anyone_or_everyone := truthy (default PNone (m !! "anyoneOrEveryoneAtWeb"));
          external_owner := truthy (default PNone (m !! "externalOwnerPresent")) |}.
Proof.
  intros Hm. unfold normalize. rewrite Hm. cbn.
  repeat (match goal with |- context [m !! ?k] => destruct (m !! k) end); reflexivity.
Qed.

(** Line 94 gave something else than a dict: the first [get] on it raises. *)
Lemma normalize_raises (data v : pyval) :
  py_get data "metrics" (PDict ∅) = Ok v → (∀ m, v ≠ PDict m) →
  normalize data = Raise (get_attr_error v).
Proof.
  intros Hv Hn. unfold normalize. rewrite Hv. cbn.
  destruct v; try reflexivity. by destruct (Hn d).
Qed.

(** The artifact itself is not a dict: line 94 raises. *)
Lemma normalize_not_a_dict (data : pyval) :
  (∀ d, data ≠ PDict d) → normalize data = Raise (get_attr_error data).
Proof. intros Hn. destruct data; try reflexivity. by destruct (Hn d). Qed.

(** The classifier on integer counts never raises, and each rule adds its
    finding or not by its own condition. *)
Lemma classify_ints (t : thresholds) (u e d g : Z) (a o : bool) :
  classify rt t (int_counts u e d g a o) =
    Ok (append_if (medium_group_without_owner t && negb (g =? 0)) (groups_finding rt (PInt g))
       (append_if (bool_decide (medium_external_item_identities_gte t ≤ e))
          (identities_finding rt (PInt e))
       (append_if (bool_decide (high_unique_items_gt t < u)) (items_finding rt (PInt u))
       (append_if (high_direct_web_perms t && negb (d =? 0)) (web_finding rt (PInt d))
       (append_if (critical_external_owner t && o) owner_finding
       (append_if (critical_anyone_or_everyone t && a) anyone_finding [])))))).
Proof.
  unfold classify, py_gt, py_ge; cbn.
  replace (match u ?= high_unique_items_gt t with Gt => true | _ => false end)
    with (bool_decide (high_unique_items_gt t < u)).
  2:{ destruct (Z.compare_spec u (high_unique_items_gt t)); case_bool_decide; auto; lia. }
  replace (match e ?= medium_external_item_identities_gte t with Lt => false | _ => true end)
    with (bool_decide (medium_external_item_identities_gte t ≤ e)).
  2:{ destruct (Z.compare_spec e (medium_external_item_identities_gte t));
      case_bool_decide; auto; lia. }
  reflexivity.
Qed.

(** The findings of the three count rules, picked out of the result. *)
Lemma classify_kinds (t : thresholds) (u e d g : Z) (a o : bool) :
  ∃ fs, classify rt t (int_counts u e d g a o) = Ok fs
    ∧ List.filter is_items_finding fs =
        (if bool_decide (high_unique_items_gt t < u) then [items_finding rt (PInt u)] else [])
    ∧ List.filter is_identities_finding fs =
        (if bool_decide (medium_external_item_identities_gte t ≤ e)
         then [identities_finding rt (PInt e)] else [])
    ∧ List.filter is_web_finding fs =
        (if high_direct_web_perms t && negb (d =? 0) then [web_finding rt (PInt d)] else []).
Proof.
  eexists. split; [apply classify_ints|].
  destruct (medium_group_without_owner t && negb (g =? 0)),
    (bool_decide (medium_external_item_identities_gte t ≤ e)),
    (bool_decide (high_unique_items_gt t < u)),
    (high_direct_web_perms t && negb (d =? 0)),
    (critical_external_owner t && o), (critical_anyone_or_everyone t && a);
    repeat split; reflexivity.
Qed.

(** Whatever the counts hold: where [classify] returns, the finding of
    rule 3 is there by the truth value of the count, as line 108 has it. *)
Lemma web_finding_by_truth_value (t : thresholds) (c : counts) (fs : list finding) :
  classify rt t c = Ok fs →
  List.filter is_web_finding fs =
    (if high_direct_web_perms t && truthy (direct_web_assignments c)
     then [web_finding rt (direct_web_assignments c)] else []).
Proof.
  unfold classify.
  destruct (py_gt (unique_items c) (high_unique_items_gt t)) as [over|e]; [|intros [=]].
  destruct (py_ge (external_identities c) (medium_external_item_identities_gte t))
    as [reached|e]; [|intros [=]].
  cbn. intros [= <-].
  destruct (medium_group_without_owner t && truthy (groups_without_owner c)), reached, over,
    (high_direct_web_perms t && truthy (direct_web_assignments c)),
    (critical_external_owner t && external_owner c),
    (critical_anyone_or_everyone t && anyone_or_everyone c); reflexivity.
Qed.

(** A count that is no number makes the comparison of rule 4 raise, and
    with it the whole of [classify]. *)
Example classify_text_count :
  classify rt DEFAULT_THRESHOLDS
    {| unique_items := PStr "many"; external_identities := PInt 0;
       direct_web_assignments := PInt 0; groups_without_owner := PInt 0;
       anyone_or_everyone := false; external_owner := false |}
  = Raise (TypeError "'>' not supported between instances of 'str' and 'int'").
Proof. reflexivity. Qed.

(** The six fields absent or null: the all-defaults record. *)
Lemma normalize_defaults (d m : gmap string pyval) :
  py_get (PDict d) "metrics" (PDict ∅) = Ok (PDict m) →
  Forall (λ k, m !! k = None ∨ m !! k = Some PNone) metric_keys →
  normalize (PDict d) = Ok default_counts.
Proof.
  intros Hm Hk. rewrite (normalize_dict d m Hm).
  repeat (apply Forall_cons in Hk as [[-> | ->] Hk]); reflexivity.
Qed.

(** C1, as amended. When the artifact is a JSON object and its entry
    [metrics] is absent or an object itself, normalization returns a
    record, entry by entry the value found when that is truthy and else
    the default; and the record is the all-defaults one when each of the
    six fields is absent or null. *)
Theorem normalize_object (d m : gmap string pyval) :
  py_get (PDict d) "metrics" (PDict ∅) = Ok (PDict m) →
  normalize (PDict d) =
    Ok {| unique_items := py_or (default PNone (m !! "itemsWithUniquePermissions")) (PInt 0);
          external_identities := py_or (default PNone (m !! "externalUsers")) (PInt 0);
          direct_web_assignments := py_or (default PNone (m !! "webDirectAssignments")) (PInt 0);
          groups_without_owner := py_or (default PNone (m !! "orphanedGroups")) (PInt 0);
          anyone_or_everyone := truthy (default PNone (m !! "anyoneOrEveryoneAtWeb"));
          external_owner := truthy (default PNone (m !! "externalOwnerPresent")) |}
  ∧ (Forall (λ k, m !! k = None ∨ m !! k = Some PNone) metric_keys →
     normalize (PDict d) = Ok default_counts).
Proof.
  intros Hm. split; [by apply normalize_dict | by apply normalize_defaults].
Qed.

(** C3, as amended. With [high.direct_web_perms] enabled the finding of
    rule 3 is there, once and with the count in it, exactly when the count
    is not zero; for a count that is not negative that is exactly when it
    is above zero. *)
Theorem web_finding_iff_nonzero (t : thresholds) (u e d g : Z) (a o : bool) :
  high_direct_web_perms t = true →
  ∃ fs, classify rt t (int_counts u e d g a o) = Ok fs
    ∧ List.filter is_web_finding fs =
        (if bool_decide (d = 0) then [] else [web_finding rt (PInt d)])
    ∧ (In (web_finding rt (PInt d)) fs ↔ d ≠ 0)
    ∧ (0 ≤ d → (In (web_finding rt (PInt d)) fs ↔ 0 < d)).
Proof.
  intros Hflag. destruct (classify_kinds t u e d g a o) as (fs & Hfs & _ & _ & Hweb).
  exists fs. split; [done|]. rewrite Hflag in Hweb. cbn in Hweb.
  assert (List.filter is_web_finding fs =
          (if bool_decide (d = 0) then [] else [web_finding rt (PInt d)])) as Hfilter.
  { rewrite Hweb. case_bool_decide as Hd; [by subst d|].
    by rewrite (proj2 (Z.eqb_neq d 0) Hd). }
  assert (In (web_finding rt (PInt d)) fs ↔ d ≠ 0) as Hin.
  { assert (is_web_finding (web_finding rt (PInt d)) = true) as Hk by reflexivity.
    split.
    - intros Hfound Hd. assert (In (web_finding rt (PInt d)) (List.filter is_web_finding fs))
        as Habs by (apply filter_In; done).
      rewrite Hfilter, bool_decide_eq_true_2 in Habs by done. destruct Habs.
    - intros Hd. assert (In (web_finding rt (PInt d)) (List.filter is_web_finding fs)) as Hyes.
      { rewrite Hfilter, bool_decide_eq_false_2 by done. by left. }
      by apply filter_In in Hyes as [? _]. }
  split; [done|]. split; [done|]. intros Hpos. rewrite Hin. lia.
Qed.

(** C6. The finding of rule 4 is there exactly once above the limit and
    not at the limit; the finding of rule 5 is there at the limit and not
    one below it. *)
Theorem threshold_boundaries (t : thresholds) (u e d g : Z) (a o : bool) :
  ∃ fs, classify rt t (int_counts u e d g a o) = Ok fs
    ∧ (high_unique_items_gt t < u →
       List.filter is_items_finding fs = [items_finding rt (PInt u)])
    ∧ (u = high_unique_items_gt t → List.filter is_items_finding fs = [])
    ∧ (e = medium_external_item_identities_gte t →
       List.filter is_identities_finding fs = [identities_finding rt (PInt e)])
    ∧ (e = medium_external_item_identities_gte t - 1 →
       List.filter is_identities_finding fs = []).
Proof.
  destruct (classify_kinds t u e d g a o) as (fs & Hfs & Hitems & Hids & _).
  exists fs. split; [done|]. rewrite Hitems, Hids.
  split; [intros H; by rewrite bool_decide_eq_true_2|].
  split; [intros H; rewrite bool_decide_eq_false_2; [done | lia]|].
  split; [intros H; rewrite bool_decide_eq_true_2; [done | lia]|].
  intros H; rewrite bool_decide_eq_false_2; [done | lia].
Qed.

(** C7. When the metrics mapping has none of the six fields, the counts
    are the all-defaults record, the classifier under the default
    thresholds finds nothing, and the report says so at the place of the
    findings. *)
Theorem empty_metrics_report (now : string) (d m : gmap string pyval) (supplied : bool) :
  py_get (PDict d) "metrics" (PDict ∅) = Ok (PDict m) →
  Forall (λ k, m !! k = None) metric_keys →
  normalize (PDict d) = Ok default_counts
  ∧ classify rt DEFAULT_THRESHOLDS default_counts = Ok []
  ∧ analyze_data rt now (PDict d) DEFAULT_THRESHOLDS supplied
    = Ok (render rt now default_counts [])
  ∧ (render rt now default_counts []).1
    = String.concat nl
        (head_lines rt now default_counts
           ++ ["- No risks met the configured thresholds."] ++ tail_lines)%list.
Proof.
  intros Hm Hk.
  assert (normalize (PDict d) = Ok default_counts) as Hn.
  { apply (normalize_defaults d m Hm). eapply Forall_impl; [exact Hk|]. by left. }
  split; [done|]. split; [reflexivity|]. split; [|reflexivity].
  unfold analyze_data. by rewrite Hn.
Qed.

(** That nothing is found for the all-defaults record is a matter of the
    thresholds: with a minimum of 0 for rule 5 the finding of that rule is
    there. *)
Example default_counts_at_zero_minimum :
  classify rt
    {| critical_anyone_or_everyone := true; critical_external_owner := true;
       high_direct_web_perms := true; high_unique_items_gt := 250;
       medium_external_item_identities_gte := 0; medium_group_without_owner := true |}
    default_counts
  = Ok [("Medium", "External identities with item-level access: 0")].
Proof. reflexivity. Qed.

(** C8. The counts of the example under the default thresholds: one
    finding, of severity High, with the count 300 in it. *)
Theorem single_finding_example :
  classify rt DEFAULT_THRESHOLDS (int_counts 300 5 0 0 false false)
  = Ok [("High", "Items with unique permissions: 300")].
Proof. reflexivity. Qed.

(** [analyze] does not look at its last argument. *)
Lemma analyze_ignores_flag (tree : Fs.fs) (now : string) (json_path : Fs.path)
    (t : thresholds) (supplied supplied' : bool) :
  analyze rt tree now json_path t supplied = analyze rt tree now json_path t supplied'.
Proof.
  unfold analyze. destruct (Fs.read_text json_path tree) as [text|e]; [|reflexivity].
  cbn. destruct (json_loads rt text) as [data|e]; reflexivity.
Qed.

End Facts.

Lemma normalize_object_witness :
  py_get (PDict ∅) "metrics" (PDict ∅) = Ok (PDict ∅)
  ∧ normalize (PDict ∅) = Ok default_counts.
Proof.
  split; [reflexivity|].
  apply (normalize_object ∅ ∅); [reflexivity | repeat constructor].
Defined.

(** C1, as stated, fails: an artifact whose [metrics] is null makes the
    normalizer raise, and so does an artifact that is not an object; the
    exception leaves [analyze]. *)
Lemma normalize_null_metrics_raises :
  normalize (PDict {[ "metrics" := PNone ]})
    = Raise (AttributeError "'NoneType' object has no attribute 'get'")
  ∧ analyze_data Demo.runtime "2026-01-01T00:00:00" (PDict {[ "metrics" := PNone ]})
      DEFAULT_THRESHOLDS false
    = Raise (AttributeError "'NoneType' object has no attribute 'get'")
  ∧ analyze Demo.runtime (Fs.store ["audit.json"] "null" Fs.empty) "2026-01-01T00:00:00"
      ["audit.json"] DEFAULT_THRESHOLDS false
    = Raise (AttributeError "'NoneType' object has no attribute 'get'").
Proof. repeat split; reflexivity. Qed.

Lemma web_finding_iff_nonzero_witness :
  ∃ fs, classify Demo.runtime DEFAULT_THRESHOLDS (int_counts 0 0 3 0 false false) = Ok fs
    ∧ List.filter is_web_finding fs =
        (if bool_decide (3 = 0) then [] else [web_finding Demo.runtime (PInt 3)])
    ∧ (In (web_finding Demo.runtime (PInt 3)) fs ↔ 3 ≠ 0)
    ∧ (0 ≤ 3 → (In (web_finding Demo.runtime (PInt 3)) fs ↔ 0 < 3)).
Proof. apply (web_finding_iff_nonzero Demo.runtime DEFAULT_THRESHOLDS). reflexivity. Defined.

(** C3, as stated, fails: at a count of -1, which the normalizer passes
    on as it is, the finding is there though the count is not above
    zero. *)
Lemma web_finding_for_negative_count :
  normalize (PDict {[ "metrics" := PDict {[ "webDirectAssignments" := PInt (-1) ]} ]})
    = Ok (int_counts 0 0 (-1) 0 false false)
  ∧ high_direct_web_perms DEFAULT_THRESHOLDS = true
  ∧ classify Demo.runtime DEFAULT_THRESHOLDS (int_counts 0 0 (-1) 0 false false)
    = Ok [("High", "Direct user permissions at web scope: -1")]
  ∧ ¬ (0 < -1).
Proof. repeat split; try reflexivity. lia. Qed.

Lemma threshold_boundaries_witness :
  (∃ fs, classify Demo.runtime DEFAULT_THRESHOLDS (int_counts 251 10 0 0 false false) = Ok fs
     ∧ List.filter is_items_finding fs = [("High", "Items with unique permissions: 251")]
     ∧ List.filter is_identities_finding fs
       = [("Medium", "External identities with item-level access: 10")])
  ∧ (∃ fs, classify Demo.runtime DEFAULT_THRESHOLDS (int_counts 250 9 0 0 false false) = Ok fs
     ∧ List.filter is_items_finding fs = []
     ∧ List.filter is_identities_finding fs = []).
Proof.
  split.
  - destruct (threshold_boundaries Demo.runtime DEFAULT_THRESHOLDS 251 10 0 0 false false)
      as (fs & Hfs & Hover & _ & Hat & _).
    exists fs. split; [exact Hfs|]. split; [apply Hover; reflexivity | apply Hat; reflexivity].
  - destruct (threshold_boundaries Demo.runtime DEFAULT_THRESHOLDS 250 9 0 0 false false)
      as (fs & Hfs & _ & Heq & _ & Hbelow).
    exists fs. split; [exact Hfs|]. split; [apply Heq; reflexivity | apply Hbelow; reflexivity].
Defined.

Lemma empty_metrics_report_witness :
  normalize (PDict ∅) = Ok default_counts
  ∧ classify Demo.runtime DEFAULT_THRESHOLDS default_counts = Ok []
  ∧ analyze_data Demo.runtime "2026-01-01T00:00:00" (PDict ∅) DEFAULT_THRESHOLDS false
    = Ok (render Demo.runtime "2026-01-01T00:00:00" default_counts [])
  ∧ (render Demo.runtime "2026-01-01T00:00:00" default_counts []).1
    = String.concat nl
        (head_lines Demo.runtime "2026-01-01T00:00:00" default_counts
           ++ ["- No risks met the configured thresholds."] ++ tail_lines)%list.
Proof.
  apply (empty_metrics_report Demo.runtime "2026-01-01T00:00:00" ∅ ∅ false);
    [reflexivity | repeat constructor].
Defined.

End AuditFacts.

(** ** Directory names and the site list *)

Module SitesFacts.
Import Sites.

Lemma append_empty_r (s : string) : s ++ "" = s.
Proof.
  induction s as [|c r IH]; [done|].
  change (String c (r ++ "") = String c r). by rewrite IH.
Qed.

Lemma concat_cons_nonempty (x : string) (l : list string) :
  String.concat "" (x :: l) = x ++ String.concat "" l.
Proof. destruct l; [symmetry; apply append_empty_r | done]. Qed.

(** [runs] cuts the string and loses nothing. *)
Lemma runs_join (s : string) : String.concat "" (map snd (runs s)) = s.
Proof.
  induction s as [|c r IH]; [done|]. cbn [runs].
  destruct (runs r) as [|[b blk] rest].
  - cbn in *. by rewrite <- IH.
  - destruct (Bool.eqb b (in_class c)); cbn [map snd] in *;
      rewrite !concat_cons_nonempty in *; rewrite <- IH; reflexivity.
Qed.

(** The runs are maximal: neighbours differ, none is empty, none is mixed. *)
Lemma runs_maximal (s : string) :
  alternating (runs s) = true ∧ forallb uniform (runs s) = true.
Proof.
  induction s as [|c r [IHa IHu]]; [done|]. cbn [runs].
  destruct (runs r) as [|[b blk] rest].
  - cbn. unfold uniform; cbn. by rewrite Bool.eqb_reflx.
  - destruct (Bool.eqb b (in_class c)) eqn:Hb.
    + apply Bool.eqb_prop in Hb. subst b. split.
      * destruct rest as [|[b' blk'] rest']; [done|]. exact IHa.
      * cbn [forallb] in *.
        apply andb_prop in IHu as [Hu1 Hu2]. rewrite Hu2, andb_true_r.
        unfold uniform in *. cbn [fst snd] in *. apply andb_prop in Hu1 as [_ Hu1].
        cbn. by rewrite Bool.eqb_reflx, Hu1.
    + split.
      * assert (negb (Bool.eqb (in_class c) b) = true) as Hne
          by (destruct b, (in_class c); cbn in *; congruence).
        cbn [alternating]. by rewrite Hne.
      * cbn [forallb] in *. rewrite IHu, andb_true_r. unfold uniform; cbn.
        by rewrite Bool.eqb_reflx.
Qed.


Lemma sub_runs_in_class (b : bool) (s : string) : all_chars in_class (sub_runs b s) = true.
Proof.
  revert b; induction s as [|c r IH]; intros b; [done|]. cbn.
  destruct (in_class c) eqn:Hc; cbn; [by rewrite Hc, IH|].
  destruct b; cbn; by rewrite IH.
Qed.


(** The loop over the rows keeps, in order, what [kept] keeps. *)
Lemma sites_of_rows_kept (rows : list row) : sites_of_rows rows = omap kept rows.
Proof.
  unfold sites_of_rows.
  assert (∀ acc, foldl add_row acc rows = (acc ++ omap kept rows)%list) as H.
  { induction rows as [|r rest IH]; intros acc; cbn; [by rewrite app_nil_r|].
    rewrite IH. unfold add_row, kept. destruct (r !! "SiteUrl") as [url|]; cbn; [|done].
    destruct (String.eqb url ""); cbn; [done | by rewrite <- app_assoc]. }
  apply (H []).
Qed.

(** A row without the column, or with nothing in it, adds no site. *)
Lemma missing_or_empty_skipped (r : row) :
  r !! "SiteUrl" = None ∨ r !! "SiteUrl" = Some "" → kept r = None.
Proof. unfold kept. by intros [-> | ->]. Qed.

(** The example of the design document with an empty entry for the blank
    row: three sites. *)
Example three_rows_and_an_empty_one :
  sites_of_rows
    [ {[ "SiteUrl" := "https://contoso.sharepoint.com/sites/a" ]};
      {[ "SiteUrl" := "" ]};
      {[ "SiteUrl" := "https://contoso.sharepoint.com/sites/b" ]};
      {[ "SiteUrl" := "https://contoso.sharepoint.com/sites/c" ]} ]
  = [ "https://contoso.sharepoint.com/sites/a";
      "https://contoso.sharepoint.com/sites/b";
      "https://contoso.sharepoint.com/sites/c" ].
Proof. reflexivity. Qed.




(** C5. A row that holds only spaces is blank, yet it passes the test of
    line 177 and is stripped afterwards: the empty identifier joins the
    site list, and a file with three other rows yields four sites. *)
Theorem whitespace_row_is_kept :
  blank "   " = true
  ∧ sites_of_rows
      [ {[ "SiteUrl" := "https://contoso.sharepoint.com/sites/a" ]};
        {[ "SiteUrl" := "   " ]};
        {[ "SiteUrl" := "https://contoso.sharepoint.com/sites/b" ]};
        {[ "SiteUrl" := "https://contoso.sharepoint.com/sites/c" ]} ]
    = [ "https://contoso.sharepoint.com/sites/a"; "";
        "https://contoso.sharepoint.com/sites/b";
        "https://contoso.sharepoint.com/sites/c" ]
  ∧ sites_of_rows [ {[ "SiteUrl" := "   " ]} ] = [""].
Proof. repeat split; reflexivity. Qed.

End SitesFacts.

(** ** The orchestrator *)

Module AgentFacts.
Import Fs Audit Sites Agent Observe Conduct.
#[local] Open Scope list_scope.

Lemma parents_prefix (q p : path) : q ∈ parents_and_self p ↔ q `prefix_of` p.
Proof.
  revert q; induction p as [|c r IH]; intros q; cbn.
  - rewrite list_elem_of_singleton. split; [intros ->; done|]. intros H. by apply prefix_nil_inv.
  - rewrite elem_of_cons, list_elem_of_fmap. split.
    + intros [-> | (q' & -> & Hq)]; [apply prefix_nil|]. apply prefix_cons, IH, Hq.
    + intros Hq. destruct q as [|c' q']; [by left|]. right.
      apply prefix_cons_inv_1 in Hq as Hc. apply prefix_cons_inv_2 in Hq. subst c'.
      exists q'. split; [done|]. by apply IH.
Qed.

(** Making directories changes no file and nothing of what the system
    refuses, and loses no directory, also when it raises. *)
Lemma make_dirs_grows (p here : path) (rest : list string) (made : bool) (t t' : fs)
    (r : result unit) :
  make_dirs p here rest made t = (t', r) →
  files t' = files t ∧ refused t' = refused t ∧ dirs t ⊆ dirs t'.
Proof.
  revert here made t. induction rest as [|name rest IH]; intros here made t; cbn.
  - by intros [= <- _].
  - destruct (bool_decide ((here ++ [name]) ∈ dirs t)); [apply IH|].
    destruct (bool_decide ((here ++ [name]) ∈ dom (files t))); [by intros [= <- _]|].
    destruct (fits name); cbn; [|by intros [= <- _]].
    destruct (refused t (here ++ [name])); [by intros [= <- _]|].
    intros (Hf & Hr & Hd)%IH. cbn in *. split; [done|]. split; [done|].
    etrans; [|exact Hd]. apply union_subseteq_r.
Qed.

Lemma mkdir_p_grows (p : path) (t t' : fs) (r : result unit) :
  mkdir_p p t = (t', r) →
  files t' = files t ∧ refused t' = refused t ∧ dirs t ⊆ dirs t'.
Proof. apply make_dirs_grows. Qed.

Lemma make_dirs_raises (p here : path) (rest : list string) (made : bool) (t t' : fs)
    (e : exn) :
  make_dirs p here rest made t = (t', Raise e) → ∃ msg, e = OSError msg.
Proof.
  revert here made t. induction rest as [|name rest IH]; intros here made t; cbn; [done|].
  destruct (bool_decide ((here ++ [name]) ∈ dirs t)); [apply IH|].
  destruct (bool_decide ((here ++ [name]) ∈ dom (files t))); [intros [= _ <-]; by eexists|].
  destruct (fits name); cbn; [|intros [= _ <-]; by eexists].
  destruct (refused t (here ++ [name])); [intros [= _ <-]; by eexists | apply IH].
Qed.

Lemma mkdir_p_raises (p : path) (t t' : fs) (e : exn) :
  mkdir_p p t = (t', Raise e) → ∃ msg, e = OSError msg.
Proof. apply make_dirs_raises. Qed.

Lemma make_dirs_made (p here : path) (rest : list string) (made : bool) (t t' : fs)
    (u : unit) :
  make_dirs p here rest made t = (t', Ok u) → rest ≠ [] → (here ++ rest) ∈ dirs t'.
Proof.
  revert here made t. induction rest as [|name rest IH]; intros here made t; [done|].
  intros Hm _. cbn in Hm.
  assert (∀ made' t0, (here ++ [name]) ∈ dirs t0 →
            make_dirs p (here ++ [name]) rest made' t0 = (t', Ok u) →
            (here ++ name :: rest) ∈ dirs t') as Hstep.
  { intros made' t0 Hin Hm'. destruct rest as [|name' rest'].
    - cbn in Hm'. by injection Hm' as <-.
    - apply IH in Hm'; [|done]. by rewrite <- app_assoc in Hm'. }
  destruct (bool_decide ((here ++ [name]) ∈ dirs t)) eqn:Hd.
  { apply bool_decide_eq_true in Hd. by apply (Hstep made t). }
  destruct (bool_decide ((here ++ [name]) ∈ dom (files t))); [done|].
  destruct (fits name); cbn in Hm; [|done].
  destruct (refused t (here ++ [name])); [done|].
  apply (Hstep true (with_dir (here ++ [name]) t)); [|done].
  cbn. apply elem_of_union_l. by apply elem_of_singleton.
Qed.

Lemma mkdir_p_made (p : path) (t t' : fs) (u : unit) :
  mkdir_p p t = (t', Ok u) → p ≠ [] → p ∈ dirs t'.
Proof. intros Hm Hp. by apply (make_dirs_made p [] p false t t' u). Qed.

Lemma make_dirs_clear (p here : path) (rest : list string) (made : bool) (t : fs) :
  forallb fits rest = true →
  (∀ q, q `prefix_of` (here ++ rest) → (q ∉ dom (files t)) ∧ refused t q = None) →
  ∃ t', make_dirs p here rest made t = (t', Ok ()).
Proof.
  revert here made t. induction rest as [|name rest IH]; intros here made t Hfit Hq.
  { by eexists. }
  cbn in Hfit |- *. apply andb_true_iff in Hfit as [Hn Hfit].
  destruct (Hq (here ++ [name])) as [Hnf Hnr].
  { exists rest. by rewrite <- app_assoc. }
  destruct (bool_decide ((here ++ [name]) ∈ dirs t)).
  { apply IH; [done|]. intros q. rewrite <- app_assoc. apply Hq. }
  rewrite (bool_decide_eq_false_2 _ Hnf), Hn, Hnr. cbn.
  apply IH; [done|]. intros q. rewrite <- app_assoc. apply Hq.
Qed.

Lemma clear_way_spec (t : fs) (p : path) :
  clear_way t p = true ↔
  forallb fits p = true
  ∧ ∀ q, q `prefix_of` p → (q ∉ dom (files t)) ∧ refused t q = None.
Proof.
  unfold clear_way. rewrite andb_true_iff.
  split; intros [Hfit Hq]; (split; [done|]).
  - intros q Hp. rewrite forallb_forall in Hq. specialize (Hq q).
    rewrite <- list_elem_of_In, parents_prefix in Hq.
    specialize (Hq Hp). apply andb_true_iff in Hq as [Hf Hr].
    apply bool_decide_eq_true in Hf. by destruct (refused t q).
  - apply forallb_forall. intros q Hin. rewrite <- list_elem_of_In, parents_prefix in Hin.
    destruct (Hq q Hin) as [Hf ->]. by rewrite (bool_decide_eq_true_2 _ Hf).
Qed.

(** A directory with a clear way is made. *)
Lemma mkdir_p_clear (t : fs) (p : path) :
  clear_way t p = true → ∃ t', mkdir_p p t = (t', Ok ()).
Proof.
  intros [Hfit Hq]%clear_way_spec. by apply make_dirs_clear.
Qed.

Lemma clear_way_prefix (t : fs) (p p' : path) :
  p' `prefix_of` p → clear_way t p = true → clear_way t p' = true.
Proof.
  intros [k ->]. rewrite !clear_way_spec, forallb_app, andb_true_iff.
  intros [[Hfit _] Hq]. split; [done|]. intros q Hp. apply Hq. etrans; [done|].
  by apply prefix_app_r.
Qed.

Lemma clear_way_stays (t t' : fs) (p : path) :
  refused t' = refused t →
  (∀ q, q `prefix_of` p → files t' !! q = files t !! q) →
  clear_way t p = true → clear_way t' p = true.
Proof.
  intros Hr Hf. rewrite !clear_way_spec. intros [Hfit Hq]. split; [done|].
  intros q Hp. destruct (Hq q Hp) as [Hnf Hnr]. rewrite Hr. split; [|done].
  rewrite not_elem_of_dom in Hnf |- *. by rewrite Hf.
Qed.

(** What a write changes: the one file at most, whether it raises or not. *)
Lemma write_text_spec (p : path) (text : string) (t : fs) :
  ∃ t' r, write_text p text t = (t', r)
    ∧ dirs t' = dirs t ∧ refused t' = refused t
    ∧ (∀ q, q ≠ p → files t' !! q = files t !! q)
    ∧ (∀ q, is_Some (files t !! q) → is_Some (files t' !! q))
    ∧ (∀ u, r = Ok u → t' = store p text t).
Proof.
  assert (∀ text' q, is_Some (files t !! q) → is_Some (files (store p text' t) !! q))
    as Hmono.
  { intros text' q Hq. cbn. destruct (decide (p = q)) as [->|Hne];
      [rewrite lookup_insert_eq; by eexists | by rewrite lookup_insert_ne]. }
  unfold write_text. destruct (bool_decide (p ∈ dirs t)); [by eexists _, _|].
  destruct (bool_decide (removelast p ∈ dirs t)); cbn; [|by eexists _, _].
  destruct (refused t p); [by eexists _, _|].
  destruct (encode_error text); eexists _, _; (split; [reflexivity|]);
    (split; [done|]); (split; [done|]);
    (split; [intros q Hq; cbn; by rewrite lookup_insert_ne|]);
    (split; [apply Hmono | done]).
Qed.

Ltac shape :=
  repeat split; try done; try (by eexists); try lia;
  try (by rewrite ?last_cons, ?last_app); try apply prefix_nil;
  try (rewrite length_app; cbn; lia);
  try (repeat first [rewrite app_comm_cons | rewrite app_assoc]; by apply last_snoc).

Ltac events :=
  rewrite ?app_nil_r;
  repeat first [apply Forall_app_2 | apply Forall_cons_2 | apply Forall_nil_2]; try done.

Ltac streams :=
  unfold stdout_of, stderr_of, written, spawns in *; rewrite ?app_nil_r, ?omap_app;
  unfold omap in *; cbn [list_omap app].

Section WithHost.
Context {W : Type} (rt : Runtime) (h : Host W).
Context (run_dir : path).

(** What the grant stage does: its announcement, then at most the one
    command; the tree stays. *)
Lemma grant_stage_spec (a : args) (pfx_pass site : string) (t : fs) (w : W) :
  ∃ ev w' r,
    grant_stage h a pfx_pass site t w = (Stdout ("[grant] " +:+ site) :: ev, t, w', r)
    ∧ stdout_of ev = [] ∧ stderr_of ev = [] ∧ written ev = []
    ∧ (length (spawns ev) ≤ 1)%nat ∧ (is_ok r = true → length (spawns ev) = 1%nat)
    ∧ Forall (site_event h a run_dir site) ev.
Proof.
  unfold grant_stage, grant_sites_selected, run, spawn, print, emit, lift.
  unfold mbind, M_bind, bind, mret, M_ret, ret, raise. cbn.
  destruct (derive_admin_url site) as [url|e]; cbn.
  2:{ eexists [], w, _. repeat split; cbn; [lia | done | constructor]. }
  destruct (popen h _ None w) as [p w1].
  assert (site_event h a run_dir site
            (Spawn [POWERSHELL h; "-NoProfile"; "-Command";
                    grant_script h (replace_char "'" "''" pfx_pass) url (tenant_id a)
                      (app_id a) (pfx_path a) site "Audit Agent"] None)) as Hs.
  { split; [by eexists | by left]. }
  destruct (ended p) as [c|e]; cbn.
  - destruct (negb (returncode c =? 0)); eexists [_], w1, _;
      (split; [reflexivity|]); repeat split; cbn; try lia; by constructor.
  - eexists [_], w1, _. split; [reflexivity|]. repeat split; cbn; try lia; by constructor.
Qed.

(** What the audit stage does: its announcement and the one command, which
    may leave the artifact. *)
Lemma audit_stage_spec (a : args) (pfx_pass site : string) (sd : path) (t : fs) (w : W) :
  ∃ cmd limit t' w' r,
    audit_stage h a pfx_pass site sd t w
      = ([Stdout ("[audit] " +:+ site); Spawn cmd limit], t', w', r)
    ∧ (t' = t ∨ ∃ text, t' = store (audit_json sd) text t)
    ∧ (∀ json, r = Ok json → json = audit_json sd)
    ∧ powershell_command h a cmd limit.
Proof.
  unfold audit_stage, run_audit_script, run, spawn, print, emit.
  unfold mbind, M_bind, bind, mret, M_ret, ret, raise. cbn.
  destruct (popen h _ _ w) as [p w1].
  assert (match emitted p with
          | Some text => store (sd ++ ["audit.json"]) text t
          | None => t
          end = t
          ∨ ∃ text, match emitted p with
                    | Some text => store (sd ++ ["audit.json"]) text t
                    | None => t
                    end = store (audit_json sd) text t) as Ht.
  { destruct (emitted p); [right; by eexists | by left]. }
  destruct (ended p) as [c|e]; cbn.
  - destruct (negb (returncode c =? 0)); cbn; eexists _, _, _, w1, _;
      (split; [reflexivity|]); (split; [exact Ht|]);
      (split; [intros json [=]; done|]); (split; [by eexists | by right]).
  - eexists _, _, _, w1, _. split; [reflexivity|]. split; [exact Ht|].
    split; [intros json [=]|]. split; [by eexists | by right].
Qed.

Lemma lookup_store_ne (p q : path) (text : string) (t : fs) :
  p ≠ q → files (store q text t) !! p = files t !! p.
Proof. intros Hne. cbn. by rewrite lookup_insert_ne. Qed.

Lemma report_paths_differ (sd : path) :
  report_md sd ≠ report_html sd ∧ report_md sd ≠ audit_json sd
  ∧ report_html sd ≠ audit_json sd.
Proof.
  unfold report_md, report_html, audit_json.
  repeat split; intros Heq; apply app_inv_head in Heq; discriminate.
Qed.

Lemma is_Some_store (p q : path) (text : string) (t : fs) :
  is_Some (files t !! p) → is_Some (files (store q text t) !! p).
Proof.
  intros Hp. cbn. destruct (decide (q = p)) as [->|Hne];
    [rewrite lookup_insert_eq; by eexists | by rewrite lookup_insert_ne].
Qed.

(** What the analyze stage does, on any tree: after its announcement it
    tries no write, the one of [report.md], or both, and it returns when
    both returned. It changes no file but those it tried to write. *)
Lemma analyze_stage_spec (a : args) (site : string) (json : path) (t : fs) (w : W) :
  let sd := site_dir_of run_dir site in
  ∃ ev t' r,
    analyze_stage rt h a site sd json t w = (Stdout ("[analyze] " +:+ site) :: ev, t', w, r)
    ∧ stdout_of ev = [] ∧ stderr_of ev = [] ∧ spawns ev = []
    ∧ Forall (site_event h a run_dir site) ev
    ∧ (written ev).*1 `prefix_of` [report_md sd; report_html sd]
    ∧ dirs t' = dirs t ∧ refused t' = refused t
    ∧ (∀ p, p ∉ (written ev).*1 → files t' !! p = files t !! p)
    ∧ (∀ p, is_Some (files t !! p) → is_Some (files t' !! p))
    ∧ (∀ u, r = Ok u → ∃ reports,
         analyze rt t (now_iso h w) json DEFAULT_THRESHOLDS
           (match internal_domains a with [] => false | _ => true end) = Ok reports
         ∧ t' = store (report_html sd) reports.2 (store (report_md sd) reports.1 t)
         ∧ written ev = [(report_md sd, reports.1); (report_html sd, reports.2)]).
Proof.
  intros sd. unfold analyze_stage, analyze_artifact, write, print, emit.
  unfold mbind, M_bind, bind, mret, M_ret, ret. cbn.
  destruct (analyze rt t _ json _ _) as [reports|e] eqn:Han; cbn.
  2:{ eexists [], t, _. split; [reflexivity|]. repeat split; try done; try constructor.
      apply prefix_nil. }
  assert (site_event h a run_dir site (WriteText (sd ++ ["report.md"]) reports.1)) as H1
    by by left.
  assert (site_event h a run_dir site (WriteText (sd ++ ["report.html"]) reports.2)) as H2
    by by right.
  destruct (write_text_spec (sd ++ ["report.md"]) reports.1 t)
    as (t1 & r1 & Hw1 & Hd1 & Hr1 & Hf1 & Hm1 & Hs1).
  rewrite Hw1. destruct r1 as [[]|e1]; cbn.
  2:{ eexists [_], t1, _. split; [reflexivity|]. repeat split; try done.
      - by constructor.
      - cbn. by exists [report_html sd].
      - intros p Hp. apply Hf1. intros ->. apply Hp. cbn. by left. }
  destruct (write_text_spec (sd ++ ["report.html"]) reports.2 t1)
    as (t2 & r2 & Hw2 & Hd2 & Hr2 & Hf2 & Hm2 & Hs2).
  rewrite Hw2.
  assert (∀ p, p ∉ [sd ++ ["report.md"]; sd ++ ["report.html"]] →
               files t2 !! p = files t !! p) as Hf.
  { intros p Hp. rewrite Hf2, Hf1; [done| |]; intros ->; apply Hp;
      [by left | right; by left]. }
  destruct r2 as [[]|e2]; cbn; eexists [_; _], t2, _; (split; [reflexivity|]);
    (split; [done|]); (split; [done|]); (split; [done|]);
    (split; [by repeat constructor|]); (split; [done|]);
    (split; [by rewrite Hd2|]); (split; [by rewrite Hr2|]);
    (split; [exact Hf|]); (split; [by auto|]); [|done].
  intros u _. exists reports. split; [done|].
  by rewrite (Hs2 () eq_refl), (Hs1 () eq_refl).
Qed.

(** One pass through the loop body, on any tree and any host. An exception
    leaves it only when the directory of the site cannot be made, and then
    no stage started; a stage that fails ends the pass with a value. The
    pass loses no directory, changes nothing of what the system refuses,
    and changes no file but the artifact and those it tried to write. *)
Lemma process_site_spec (a : args) (pfx_pass site : string) (t : fs) (w : W) :
  let sd := site_dir_of run_dir site in
  ∃ ev t' w' r,
    process_site rt h a pfx_pass run_dir site t w = (ev, t', w', r)
    ∧ Forall (site_event h a run_dir site) ev
    ∧ dirs t ⊆ dirs t' ∧ refused t' = refused t
    ∧ (∀ p, p ≠ audit_json sd → p ∉ (written ev).*1 → files t' !! p = files t !! p)
    ∧ (∀ p, is_Some (files t !! p) → is_Some (files t' !! p))
    ∧ match r with
      | Raise e => mkdir_p sd t = (t', Raise e) ∧ ev = [Mkdir sd] ∧ w' = w
      | Ok o =>
          (∃ t1, mkdir_p sd t = (t1, Ok ()))
          ∧ block_shape run_dir site o ev
          ∧ sd ∈ dirs t'
          ∧ (o = Done → ∃ t2 reports,
               analyze rt t2 (now_iso h w') (audit_json sd) DEFAULT_THRESHOLDS
                 (match internal_domains a with [] => false | _ => true end) = Ok reports
               ∧ t' = store (report_html sd) reports.2 (store (report_md sd) reports.1 t2)
               ∧ written ev = [(report_md sd, reports.1); (report_html sd, reports.2)])
      end.
Proof.
  intros sd. unfold process_site. fold sd.
  unfold mbind, M_bind, bind, try, mkdir, eprint, emit, mret, M_ret, ret.
  destruct (mkdir_p sd t) as [t1 made] eqn:Hmk.
  destruct (mkdir_p_grows _ _ _ _ Hmk) as (Hf1 & Hr1 & Hd1).
  destruct made as [[]|e1].
  2:{ eexists _, _, _, _. split; [reflexivity|]. split; [by repeat constructor|].
      split; [done|]. split; [done|]. split; [by intros; rewrite Hf1|].
      split; [by intros; rewrite Hf1 | done]. }
  assert (sd ∈ dirs t1) as Hsd.
  { apply (mkdir_p_made _ _ _ _ Hmk). unfold sd, site_dir_of. by destruct run_dir. }
  destruct (grant_stage_spec a pfx_pass site t1 w)
    as (evg & w1 & rg & Hg & Hg1 & Hg2 & Hg3 & Hg4 & Hg5 & Hg6).
  rewrite Hg. destruct rg as [granted|e]; [specialize (Hg5 eq_refl)|].
  2:{ eexists _, t1, w1, (Ok (Failed Grant e)). split; [reflexivity|].
      split; [events|].
      split; [done|]. split; [done|]. split; [by intros; rewrite Hf1|].
      split; [by intros; rewrite Hf1|]. split; [by eexists|]. split; [|done].
      unfold block_shape. fold sd. streams. rewrite ?Hg1, ?Hg2, ?Hg3. cbn. shape. }
  destruct (audit_stage_spec a pfx_pass site sd t1 w1)
    as (cmd & limit & t2 & w2 & ra & Ha & Ht2 & Hjson & Hcmd).
  rewrite Ha.
  assert (dirs t2 = dirs t1) as Hd2 by (destruct Ht2 as [-> | [text ->]]; done).
  assert (refused t2 = refused t1) as Hr2 by (destruct Ht2 as [-> | [text ->]]; done).
  assert (∀ p, p ≠ audit_json sd → files t2 !! p = files t !! p) as Hfr2.
  { intros p Hp. rewrite <- Hf1. destruct Ht2 as [-> | [text ->]]; [done|].
    by apply lookup_store_ne. }
  assert (∀ p, is_Some (files t !! p) → is_Some (files t2 !! p)) as Hmono2.
  { intros p. rewrite <- Hf1. destruct Ht2 as [-> | [text ->]]; [done|].
    apply is_Some_store. }
  destruct ra as [json|e].
  2:{ eexists _, t2, w2, (Ok (Failed Audit e)). split; [reflexivity|].
      split; [events|].
      split; [by rewrite Hd2|]. split; [by rewrite Hr2|]. split; [by auto|].
      split; [done|]. split; [by eexists|]. split; [|by rewrite Hd2].
      unfold block_shape. fold sd. streams. rewrite ?Hg1, ?Hg2, ?Hg3. cbn. shape. }
  rewrite (Hjson json eq_refl).
  destruct (analyze_stage_spec a site (audit_json sd) t2 w2)
    as (ev3 & t3 & r3 & H3 & H3o & H3e & H3p & H3s & H3w & H3d & H3r & H3f & H3m & H3k).
  fold sd in H3, H3w, H3k. rewrite H3.
  assert (∀ p, p ≠ audit_json sd → p ∉ (written ev3).*1 → files t3 !! p = files t !! p)
    as Hfr3.
  { intros p Hp1 Hp2. rewrite H3f by done. by apply Hfr2. }
  destruct r3 as [[]|e].
  2:{ eexists _, t3, w2, (Ok (Failed Analyze e)). split; [reflexivity|].
      split; [events|].
      split; [by rewrite H3d, Hd2|]. split; [by rewrite H3r, Hr2|].
      split. { intros p Hp1 Hp2. apply Hfr3; [done|]. intros Hin. apply Hp2.
               streams. rewrite Hg3. cbn. by rewrite ?app_nil_r. }
      split; [by auto|]. split; [by eexists|]. split; [|by rewrite H3d, Hd2].
      unfold block_shape. fold sd. streams.
      rewrite ?Hg1, ?Hg2, ?Hg3, ?H3o, ?H3e, ?H3p. cbn. rewrite ?app_nil_r. shape. }
  destruct (H3k () eq_refl) as (reports & Han & Ht3 & Hw3).
  eexists _, t3, w2, (Ok Done). split; [reflexivity|].
  split; [events|].
  split; [by rewrite H3d, Hd2|]. split; [by rewrite H3r, Hr2|].
  split. { intros p Hp1 Hp2. apply Hfr3; [done|]. intros Hin. apply Hp2.
           streams. rewrite Hg3. cbn. by rewrite ?app_nil_r. }
  split; [by auto|]. split; [by eexists|]. split; [|split; [by rewrite H3d, Hd2|]].
  - unfold block_shape. fold sd. streams.
    rewrite ?Hg1, ?Hg2, ?Hg3, ?H3o, ?H3e, ?H3p, ?Hw3. cbn. shape.
  - intros _. exists t2, reports. split; [done|]. split; [done|].
    streams. rewrite Hg3, Hw3. done.
Qed.





(** X24. When a pass ends well, the two reports are what [analyze] made of the
    artifact of the site, read at the end of the audit stage. *)
Lemma reports_are_the_analysis (a : args) (pfx_pass site : string) (t t' : fs) (w w' : W)
    (ev : list event) :
  unobstructed run_dir t →
  process_site rt h a pfx_pass run_dir site t w = (ev, t', w', Ok Done) →
  let sd := site_dir_of run_dir site in
  ∃ t2 reports,
    analyze rt t2 (now_iso h w') (audit_json sd) DEFAULT_THRESHOLDS
      (match internal_domains a with [] => false | _ => true end) = Ok reports
    ∧ t' = store (report_html sd) reports.2 (store (report_md sd) reports.1 t2)
    ∧ written ev = [(report_md sd, reports.1); (report_html sd, reports.2)].
Proof.
  intros _ Hp sd.
  destruct (process_site_spec a pfx_pass site t w)
    as (ev0 & t0 & w0 & r0 & Hp0 & _ & _ & _ & _ & _ & Hcase).
  rewrite Hp in Hp0. injection Hp0 as <- <- <- <-.
  destruct Hcase as (_ & _ & _ & Hdone). by apply Hdone.
Qed.

(** The loop over the sites, on any tree and any host: the passes of the
    sites, one after the other, up to the first site whose directory cannot
    be made; the exception of that [mkdir] ends the loop, and nothing else
    does. *)
Lemma for_sites_spec (a : args) (pfx_pass : string) (sites : list string) (t : fs) (w : W) :
  ∃ blocks outcomes tail t' w' r,
    for_sites rt h a pfx_pass run_dir sites t w = (concat blocks ++ tail, t', w', r)
    ∧ Forall (λ e, ∃ site, site ∈ sites ∧ site_event h a run_dir site e)
        (concat blocks ++ tail)
    ∧ dirs t ⊆ dirs t' ∧ refused t' = refused t
    ∧ (∀ p, p ∉ (audit_json ∘ site_dir_of run_dir <$> sites) →
            p ∉ (written (concat blocks)).*1 → files t' !! p = files t !! p)
    ∧ (∀ p, is_Some (files t !! p) → is_Some (files t' !! p))
    ∧ Forall3 (site_left run_dir t') (take (length outcomes) sites) outcomes blocks
    ∧ match r with
      | Ok os => os = outcomes ∧ tail = [] ∧ length outcomes = length sites
      | Raise e =>
          (∃ msg, e = OSError msg)
          ∧ ∃ site, sites !! length outcomes = Some site
              ∧ tail = [Mkdir (site_dir_of run_dir site)]
      end.
Proof.
  revert t w. induction sites as [|site rest IH]; intros t w.
  { exists [], [], [], t, w, (Ok []). split; [done|]. split; [constructor|].
    do 4 (split; [done|]). split; [constructor | done]. }
  cbn [for_sites]. unfold mbind, M_bind, bind.
  destruct (process_site_spec a pfx_pass site t w)
    as (ev1 & t1 & w1 & r1 & Hp & He1 & Hd1 & Hr1 & Hf1 & Hm1 & Hcase).
  rewrite Hp. destruct r1 as [o|e1].
  2:{ destruct Hcase as (Hmk & -> & ->).
      exists [], [], [Mkdir (site_dir_of run_dir site)], t1, w, (Raise e1).
      split; [done|]. split.
      { constructor; [|constructor]. exists site. split; [by left | done]. }
      split; [done|]. split; [done|]. split.
      { intros p Hp1 _. apply Hf1; [|apply not_elem_of_nil]. intros ->. apply Hp1. by left. }
      split; [done|]. split; [constructor|]. split; [by apply mkdir_p_raises in Hmk|].
      by exists site. }
  destruct Hcase as (_ & Hshape & Hsd & Hdone).
  destruct (IH t1 w1)
    as (blocks & os & tail & t2 & w2 & r2 & Hrest & He2 & Hd2 & Hr2 & Hf2 & Hm2 & Hall & Hend).
  rewrite Hrest. unfold mret, M_ret, ret.
  exists (ev1 :: blocks), (o :: os), tail, t2, w2,
    (match r2 with Ok os' => Ok (o :: os') | Raise e => Raise e end).
  split. { destruct r2; cbn; by rewrite ?app_nil_r, <- ?app_assoc. }
  split.
  { cbn. rewrite <- app_assoc. apply Forall_app_2.
    - eapply Forall_impl; [exact He1|]. intros e He. exists site. split; [by left | done].
    - eapply Forall_impl; [exact He2|]. intros e (s & Hin & He). exists s.
      split; [by right | done]. }
  split; [by etrans|]. split; [by rewrite Hr2|]. split.
  { intros p Hp1 Hp2. cbn in Hp1, Hp2. apply not_elem_of_cons in Hp1 as [Hp1 Hp1'].
    unfold written in Hp2. rewrite omap_app, fmap_app, not_elem_of_app in Hp2.
    destruct Hp2 as [Hp2 Hp2']. rewrite Hf2 by done. by apply Hf1. }
  split; [by auto|]. split.
  { cbn. constructor; [|done]. split; [done|]. split; [by apply Hd2|].
    intros Ho. destruct (Hdone Ho) as (t0 & reports & _ & -> & _).
    destruct (report_paths_differ (site_dir_of run_dir site)) as (Hmh & _).
    split; apply Hm2; cbn.
    - rewrite lookup_insert_ne by (intros Heq; by apply Hmh). rewrite lookup_insert_eq.
      by eexists.
    - rewrite lookup_insert_eq. by eexists. }
  destruct r2 as [os'|e2]; cbn.
  - destruct Hend as (-> & -> & ->). done.
  - destruct Hend as (Hmsg & s & Hs & ->). split; [done|]. by exists s.
Qed.


(** X25. When the directory of a site cannot be made, the exception is nobody's
    to take: no stage starts, and the loop ends there. *)
Lemma process_site_mkdir_raises (a : args) (pfx_pass : string)
    (site : string) (rest : list string) (t t1 : fs) (w : W) (e : exn) :
  mkdir_p (site_dir_of run_dir site) t = (t1, Raise e) →
  process_site rt h a pfx_pass run_dir site t w
  = ([Mkdir (site_dir_of run_dir site)], t1, w, Raise e)
  ∧ for_sites rt h a pfx_pass run_dir (site :: rest) t w
    = ([Mkdir (site_dir_of run_dir site)], t1, w, Raise e).
Proof.
  intros Hm.
  assert (process_site rt h a pfx_pass run_dir site t w
          = ([Mkdir (site_dir_of run_dir site)], t1, w, Raise e)) as Hp.
  { unfold process_site, mbind, M_bind, bind, mkdir. by rewrite Hm. }
  split; [done|]. cbn [for_sites]. unfold mbind, M_bind, bind. by rewrite Hp.
Qed.

End WithHost.

Section Main.
Context {W : Type} (rt : Runtime) (h : Host W).

Lemma main_unset (a : args) (t : fs) (w : W) :
  (∀ c pass, environ_get h (pfx_pass_env a) ≠ Some (String c pass)) →
  main rt h a t w = ([], t, w, Ok (Exited "ERROR: PFX password env var not set")).
Proof.
  intros Hn. unfold main. destruct (environ_get h (pfx_pass_env a)) as [[|c pass]|]; [done| |done].
  by destruct (Hn c pass).
Qed.

(** [main] with a password, step by step. *)
Lemma main_steps (a : args) (pfx_pass : string) (t : fs) (w : W) :
  let out_root := resolve h (output a) in
  let run_dir := out_root ++ [ts h w] in
  environ_get h (pfx_pass_env a) = Some pfx_pass → pfx_pass ≠ "" →
  main rt h a t w =
    match mkdir_p out_root t with
    | (t1, Raise e) => ([Mkdir out_root], t1, w, Raise e)
    | (t1, Ok _) =>
        match mkdir_p (run_dir ++ ["logs"]) t1 with
        | (t2, Raise e) => ([Mkdir out_root; Mkdir (run_dir ++ ["logs"])], t2, w, Raise e)
        | (t2, Ok _) =>
            match site_list h a w with
            | Raise e => ([Mkdir out_root; Mkdir (run_dir ++ ["logs"])], t2, w, Raise e)
            | Ok [] =>
                ([Mkdir out_root; Mkdir (run_dir ++ ["logs"])], t2, w,
                 Ok (Exited "No sites provided."))
            | Ok sites =>
                match for_sites rt h a pfx_pass run_dir sites t2 w with
                | (ev, t', w', Ok outcomes) =>
                    (Mkdir out_root :: Mkdir (run_dir ++ ["logs"]) :: ev
                       ++ [run_complete run_dir], t', w', Ok (Completed outcomes))
                | (ev, t', w', Raise e) =>
                    (Mkdir out_root :: Mkdir (run_dir ++ ["logs"]) :: ev, t', w', Raise e)
                end
            end
        end
    end.
Proof.
  intros out_root run_dir Henv Hne. unfold main. rewrite Henv.
  destruct pfx_pass as [|c pass]; [done|].
  unfold mbind, M_bind, bind, mkdir, mret, M_ret, ret, print, emit.
  fold out_root. destruct (mkdir_p out_root t) as [t1 [[]|e1]]; [|done].
  fold run_dir. destruct (mkdir_p (run_dir ++ ["logs"]) t1) as [t2 [[]|e2]]; [|done].
  destruct (site_list h a w) as [[|site rest]|e3]; [done| |done].
  destruct (for_sites rt h a (String c pass) run_dir (site :: rest) t2 w)
    as [[[ev t'] w'] [os|e4]]; [|done].
  by rewrite app_nil_r.
Qed.

(** Where the way is clear, the two directories of the run are made. *)
Lemma run_dirs_made (out_root : path) (stamp : string) (t : fs) :
  clear_way t ((out_root ++ [stamp]) ++ ["logs"]) = true →
  ∃ t1 t2,
    mkdir_p out_root t = (t1, Ok ())
    ∧ mkdir_p ((out_root ++ [stamp]) ++ ["logs"]) t1 = (t2, Ok ())
    ∧ files t2 = files t ∧ refused t2 = refused t.
Proof.
  intros Hclear.
  assert (out_root `prefix_of` ((out_root ++ [stamp]) ++ ["logs"])) as Hpre.
  { rewrite <- app_assoc. by apply prefix_app_r. }
  destruct (mkdir_p_clear t out_root) as [t1 H1].
  { by apply (clear_way_prefix t _ _ Hpre). }
  destruct (mkdir_p_grows _ _ _ _ H1) as (Hf1 & Hr1 & _).
  destruct (mkdir_p_clear t1 ((out_root ++ [stamp]) ++ ["logs"])) as [t2 H2].
  { apply (clear_way_stays t); [done | by intros; rewrite Hf1 | done]. }
  destruct (mkdir_p_grows _ _ _ _ H2) as (Hf2 & Hr2 & _).
  exists t1, t2. split; [done|]. split; [done|]. split; [by rewrite Hf2 | by rewrite Hr2].
Qed.


(** C10. On any tree and any host, the loop is the passes of the sites, one
    after the other, up to the first site whose directory cannot be made.
    The pass of every site whose directory was made begins with that
    [mkdir], and only then the grant stage starts; the directory is in the
    tree at the end of the loop, whatever became of the site and of the
    sites after it. When the grant or the audit stage of the site failed,
    no write was tried for it; when its analyze stage failed, the writes
    that were tried are none, the one of [report.md], or both. *)
Theorem site_dir_made_before_grant (a : args) (pfx_pass : string) (run_dir : path)
    (sites : list string) (t : fs) (w : W) :
  ∃ blocks outcomes tail t' w' r,
    for_sites rt h a pfx_pass run_dir sites t w = (concat blocks ++ tail, t', w', r)
    ∧ Forall3 (λ site o ev,
        (∃ rest, ev = Mkdir (site_dir_of run_dir site) :: Stdout ("[grant] " +:+ site) :: rest)
        ∧ site_dir_of run_dir site ∈ dirs t'
        ∧ (∀ st e, o = Failed st e → st ≠ Analyze → written ev = [])
        ∧ (∀ e, o = Failed Analyze e →
             (written ev).*1 `prefix_of` [ report_md (site_dir_of run_dir site);
                                           report_html (site_dir_of run_dir site) ]))
        (take (length outcomes) sites) outcomes blocks
    ∧ match r with
      | Ok os => os = outcomes ∧ tail = [] ∧ length outcomes = length sites
      | Raise e =>
          ∃ site, sites !! length outcomes = Some site
            ∧ tail = [Mkdir (site_dir_of run_dir site)]
      end.
Proof.
  destruct (for_sites_spec rt h run_dir a pfx_pass sites t w)
    as (blocks & outcomes & tail & t' & w' & r & Hloop & _ & _ & _ & _ & _ & Hall & Hend).
  exists blocks, outcomes, tail, t', w', r. split; [done|]. split.
  - eapply Forall3_impl; [exact Hall|]. intros site o ev ([Hfirst Hshape] & Hdir & _).
    split; [done|]. split; [done|]. split.
    + intros st e -> Hst. destruct Hshape as (_ & _ & _ & _ & Hw & _). by apply Hw.
    + intros e ->. by destruct Hshape as (_ & _ & _ & _ & _ & Hw).
  - destruct r as [os|e]; [done|]. by destruct Hend as [_ ?].
Qed.

(** C9. Whether a list of internal domains was supplied does not reach the
    result of [analyze]: the two reports are the same for the same
    artifact, thresholds and clock. So the analyze stage of the
    orchestrator does the same under two command lines that differ in
    their internal domains only. *)
Theorem internal_domains_noninterference (tree : fs) (now : string) (json_path : path)
    (t : thresholds) (supplied supplied' : bool)
    (a : args) (domains : list string) (site : string) (site_dir : path) (w : W) :
  analyze rt tree now json_path t supplied = analyze rt tree now json_path t supplied'
  ∧ analyze_stage rt h a site site_dir json_path tree w
    = analyze_stage rt h (with_internal_domains domains a) site site_dir json_path tree w.
Proof.
  split; [apply AuditFacts.analyze_ignores_flag|].
  unfold analyze_stage, analyze_artifact, mbind, M_bind, bind. cbn.
  by rewrite (AuditFacts.analyze_ignores_flag rt tree (now_iso h w) json_path
                DEFAULT_THRESHOLDS _ (match domains with [] => false | _ => true end)).
Qed.

(** Without a password [main] leaves before anything is made. *)
Lemma main_without_password (a : args) (t : fs) (w : W) :
  environ_get h (pfx_pass_env a) = None ∨ environ_get h (pfx_pass_env a) = Some "" →
  main rt h a t w = ([], t, w, Ok (Exited "ERROR: PFX password env var not set")).
Proof. unfold main. by intros [-> | ->]. Qed.

(** With an empty site list [main] leaves after the run directory is made
    and before any site is looked at. *)
Lemma main_without_sites (a : args) (pfx_pass : string) (t : fs) (w : W) :
  let out_root := resolve h (output a) in
  let run_dir := out_root ++ [ts h w] in
  environ_get h (pfx_pass_env a) = Some pfx_pass → pfx_pass ≠ "" →
  site_list h a w = Ok [] →
  clear_way t (run_dir ++ ["logs"]) = true →
  ∃ t', main rt h a t w
        = ([Mkdir out_root; Mkdir (run_dir ++ ["logs"])], t', w, Ok (Exited "No sites provided."))
      ∧ exit_status (Ok (Exited "No sites provided.")) = 1.
Proof.
  intros out_root run_dir Hpass Hne Hsites Hlogs.
  destruct (run_dirs_made out_root (ts h w) t Hlogs) as (t1 & t2 & H1 & H2 & _).
  rewrite (main_steps a pfx_pass t w Hpass Hne). fold out_root run_dir.
  rewrite H1. fold run_dir in H2. rewrite H2, Hsites. by exists t2.
Qed.

End Main.

Lemma unobstructed_empty (run_dir : path) : unobstructed run_dir Fs.empty.
Proof.
  split; [intros f x Hf; cbn in Hf; by rewrite dom_empty in Hf|].
  intros x y. cbn. rewrite elem_of_singleton. by destruct run_dir.
Qed.



(** Two passes whose analyze stage fails in a write. In the first the
    artifact holds a lone surrogate in a count that is shown and not
    compared: the text of the report cannot be encoded, and the write
    leaves [report.md] empty. In the second the system refuses
    [report.html] after [report.md] was written in full. Either way the
    site has a report file though a stage of it failed. *)
Lemma failed_analyze_leaves_report :
  (let '(ev, t', _, r) :=
     process_site Demo.runtime_s Demo.host_s Demo.arguments "secret" Demo.run_dir
       Demo.site_s Fs.empty 0%nat in
   let sd := site_dir_of Demo.run_dir Demo.site_s in
   (∃ msg, r = Ok (Failed Analyze (UnicodeEncodeError msg)))
   ∧ (written ev).*1 = [report_md sd]
   ∧ files t' !! report_md sd = Some ""
   ∧ files t' !! report_html sd = None)
  ∧ (let '(ev, t', _, r) :=
       process_site Demo.runtime (Demo.host []) Demo.arguments "secret" Demo.run_dir
         Demo.site_b Demo.tight 0%nat in
     let sd := site_dir_of Demo.run_dir Demo.site_b in
     r = Ok (Failed Analyze
               (OSError ("[Errno 122] Disk quota exceeded: '"
                         +:+ path_str (report_html sd) +:+ "'")))
     ∧ (written ev).*1 = [report_md sd; report_html sd]
     ∧ (∃ md, files t' !! report_md sd = Some md ∧ md ≠ "")
     ∧ files t' !! report_html sd = None).
Proof.
  split; vm_compute.
  - split; [by eexists|]. repeat split.
  - split; [done|]. split; [done|]. split; [|done]. eexists. split; [reflexivity|done].
Qed.

(** The run of the design document: the audit of site A fails, site B goes
    through. A has its directory and no report, B has both reports, the
    one line on the error stream is about A, the last line of the run
    names the run directory, and [main] returns. *)
Example audit_fails_for_one_site :
  let '(ev, t', _, r) :=
    main Demo.runtime (Demo.host Demo.rows_ab) Demo.arguments Fs.empty 0%nat in
  let dir_a := site_dir_of Demo.run_dir Demo.site_a in
  let dir_b := site_dir_of Demo.run_dir Demo.site_b in
  ∃ e, r = Ok (Completed [Failed Audit e; Done])
    ∧ stderr_of ev = [failed_line Audit Demo.site_a e]
    ∧ dir_a ∈ dirs t' ∧ dir_b ∈ dirs t'
    ∧ files t' !! report_md dir_a = None ∧ files t' !! report_html dir_a = None
    ∧ is_Some (files t' !! report_md dir_b) ∧ is_Some (files t' !! report_html dir_b)
    ∧ last ev = Some (Stdout (nl +:+ "Run complete " +:+ arrow +:+ " /out/2026-01-01_00-00-00"))
    ∧ exit_status r = 0.
Proof.
  vm_compute. eexists. repeat split; try reflexivity; try (by eexists).
Qed.

(** An artifact that is not an object, and one that is not there: the
    exception leaves [analyze] and is the analyze failure of the site; the
    next site goes through. *)
Example bad_artifacts_fail_analyze :
  let '(ev, t', _, r) :=
    main Demo.runtime (Demo.host Demo.rows_nmb) Demo.arguments Fs.empty 0%nat in
  r = Ok (Completed
            [ Failed Analyze (AttributeError "'NoneType' object has no attribute 'get'");
              Failed Analyze
                (OSError ("[Errno 2] No such file or directory: '"
                          +:+ path_str (audit_json (site_dir_of Demo.run_dir Demo.site_m))
                          +:+ "'"));
              Done ])
  ∧ (written ev).*1
    = [ report_md (site_dir_of Demo.run_dir Demo.site_b);
        report_html (site_dir_of Demo.run_dir Demo.site_b) ].
Proof. vm_compute. split; reflexivity. Qed.

(** A file of rows that are all blank: the list is not empty, so the run
    does not stop; it takes the empty identifier for a site. *)
Example blank_rows_are_processed :
  let '(ev, _, _, r) :=
    main Demo.runtime (Demo.host [ {[ "SiteUrl" := "   " ]} ]) Demo.arguments Fs.empty 0%nat in
  r = Ok (Completed [Failed Grant (ValueError "Unsupported SharePoint URL: ")])
  ∧ stdout_of ev = ["[grant] "; nl +:+ "Run complete " +:+ arrow +:+ " /out/2026-01-01_00-00-00"].
Proof. vm_compute. split; reflexivity. Qed.

End AgentFacts.

(** ** More on the analysis *)

Module AuditMore.
Import Audit Sites Reading.

Lemma append_assoc (a b c : string) : (a ++ b) ++ c = a ++ (b ++ c).
Proof.
  induction a as [|x r IH]; [done|].
  change (String x ((r ++ b) ++ c) = String x (r ++ (b ++ c))). by rewrite IH.
Qed.

Lemma replace_char_app (c : ascii) (by_ a b : string) :
  replace_char c by_ (a ++ b) = replace_char c by_ a ++ replace_char c by_ b.
Proof.
  induction a as [|x r IH]; [done|].
  change (String x r ++ b) with (String x (r ++ b)). cbn [replace_char].
  destruct (Ascii.eqb x c); rewrite IH; [by rewrite append_assoc | done].
Qed.

Lemma unescape_other (c : ascii) (r : string) :
  c ≠ "&"%char → unescape (String c r) = String c (unescape r).
Proof.
  intros Hc. destruct c as [[] [] [] [] [] [] [] []]; try reflexivity. by destruct Hc.
Qed.

Lemma all_chars_app (p : ascii → bool) (a b : string) :
  all_chars p (a ++ b) = all_chars p a && all_chars p b.
Proof.
  induction a as [|x r IH]; [done|].
  change (String x r ++ b) with (String x (r ++ b)). cbn [all_chars].
  by rewrite IH, andb_assoc.
Qed.

Lemma unescape_amp (s : string) : unescape ("&amp;" ++ s) = String "&" (unescape s).
Proof. reflexivity. Qed.

Lemma unescape_lt (s : string) : unescape ("&lt;" ++ s) = String "<" (unescape s).
Proof. reflexivity. Qed.

(** The two replacements of line 144, in their order, on any text. *)
Lemma fallback_escape (md : string) :
  let body := replace_char "<" "&lt;" (replace_char "&" "&amp;" md) in
  all_chars (λ c, negb (Ascii.eqb c "<")) body = true ∧ unescape body = md.
Proof.
  cbn zeta. induction md as [|c r [IHa IHu]]; [done|].
  cbn [replace_char]. destruct (Ascii.eqb_spec c "&") as [->|Hamp].
  - rewrite replace_char_app.
    replace (replace_char "<" "&lt;" "&amp;") with "&amp;" by reflexivity. split.
    + rewrite all_chars_app, IHa. reflexivity.
    + by rewrite unescape_amp, IHu.
  - cbn [replace_char]. destruct (Ascii.eqb_spec c "<") as [->|Hlt].
    + split; [rewrite all_chars_app, IHa; reflexivity | by rewrite unescape_lt, IHu].
    + split.
      * cbn [all_chars]. rewrite IHa. by rewrite (proj2 (Ascii.eqb_neq c "<") Hlt).
      * rewrite unescape_other by done. by rewrite IHu.
Qed.

Section More.
Context (rt : Runtime).

Lemma normalize_ok_shape (data : pyval) (c : counts) :
  normalize data = Ok c →
  ∃ d m, data = PDict d ∧ py_get (PDict d) "metrics" (PDict ∅) = Ok (PDict m).
Proof.
  intros Hn. destruct data as [| | | | | |d]; try discriminate.
  exists d. unfold normalize in Hn. cbn in *.
  destruct (d !! "metrics") as [[| | | | | |m]|]; try discriminate; by eexists.
Qed.


(** X1. The findings come in the order of the rules: they are picked, in
    order, from the findings of the six rules. So there are six at most,
    and the severity never rises along the list. *)
Theorem findings_in_rule_order (t : thresholds) (c : counts) (fs : list finding) :
  classify rt t c = Ok fs →
  fs `sublist_of` rule_findings rt c
  ∧ (length fs ≤ 6)%nat
  ∧ never_rises (map (λ f : finding, severity_rank f.1) fs) = true.
Proof.
  unfold classify, rule_findings.
  destruct (py_gt (unique_items c) (high_unique_items_gt t)) as [over|e]; [|intros [=]].
  destruct (py_ge (external_identities c) (medium_external_item_identities_gte t))
    as [reached|e]; [|intros [=]].
  cbn. intros [= <-].
  destruct (medium_group_without_owner t && truthy (groups_without_owner c)), reached, over,
    (high_direct_web_perms t && truthy (direct_web_assignments c)),
    (critical_external_owner t && external_owner c),
    (critical_anyone_or_everyone t && anyone_or_everyone c); cbn;
    (split; [repeat first [apply sublist_nil | apply sublist_skip | apply sublist_cons]|]);
    (split; [lia | reflexivity]).
Qed.

(** X2. [classify] raises exactly when the count of rule 4 or the count of
    rule 5 is no number, and what it raises is a [TypeError]; no flag and
    no other count can make it raise. *)
Theorem classify_fails_on_non_numbers (t : thresholds) (c : counts) :
  is_ok (classify rt t c) = numeric (unique_items c) && numeric (external_identities c)
  ∧ (∀ e, classify rt t c = Raise e → ∃ msg, e = TypeError msg).
Proof.
  unfold classify, py_gt, py_ge, cmp_int.
  destruct (unique_items c), (external_identities c); cbn;
    (split; [reflexivity | intros e [=]; by eexists]).
Qed.

(** X4. What the normalizer returns holds no falsy count but the int 0: where
    the artifact has null, false, 0.0, an empty text or an empty
    container for a count, the count is 0. *)
Theorem normalized_counts_are_truthy_or_zero (data : pyval) (c : counts) :
  normalize data = Ok c →
  Forall (λ v, truthy v = true ∨ v = PInt 0)
    [ unique_items c; external_identities c; direct_web_assignments c;
      groups_without_owner c ].
Proof.
  intros Hn. destruct (normalize_ok_shape data c Hn) as (d & m & -> & Hm).
  rewrite (AuditFacts.normalize_dict d m Hm) in Hn. injection Hn as <-. cbn.
  assert (∀ x, truthy (py_or x (PInt 0)) = true ∨ py_or x (PInt 0) = PInt 0) as Hor.
  { intros x. unfold py_or. destruct (truthy x) eqn:Hx; auto. }
  repeat (constructor; [apply Hor|]). constructor.
Qed.

(** X5. The normalizer reads back the counts an artifact was made of. *)
Theorem normalize_recovers_counts (u e d g : Z) (a o : bool) :
  normalize (artifact_of u e d g a o) = Ok (int_counts u e d g a o).
Proof.
  unfold artifact_of. erewrite AuditFacts.normalize_dict by reflexivity.
  unfold int_counts. f_equal.
  assert (∀ n, py_or (PInt n) (PInt 0) = PInt n) as Hor.
  { intros n. unfold py_or. cbn. destruct (Z.eqb_spec n 0) as [->|]; reflexivity. }
  f_equal; first [apply Hor | reflexivity].
Qed.

(** X6. The normalizer looks at the six fields of [metrics] and at nothing
    else of the artifact. *)
Theorem normalize_reads_six_keys (d d' m m' : gmap string pyval) :
  py_get (PDict d) "metrics" (PDict ∅) = Ok (PDict m) →
  py_get (PDict d') "metrics" (PDict ∅) = Ok (PDict m') →
  Forall (λ k, m !! k = m' !! k) metric_keys →
  normalize (PDict d) = normalize (PDict d').
Proof.
  intros Hm Hm' Hk.
  rewrite (AuditFacts.normalize_dict d m Hm), (AuditFacts.normalize_dict d' m' Hm').
  repeat (apply Forall_cons in Hk as [-> Hk]). reflexivity.
Qed.

Lemma rules_fired_ints (t : thresholds) (u e d g : Z) (a o : bool) :
  ∃ fs, classify rt t (int_counts u e d g a o) = Ok fs
    ∧ rules_fired fs =
        [ critical_anyone_or_everyone t && a; critical_external_owner t && o;
          high_direct_web_perms t && negb (d =? 0);
          bool_decide (high_unique_items_gt t < u);
          bool_decide (medium_external_item_identities_gte t ≤ e);
          medium_group_without_owner t && negb (g =? 0) ].
Proof.
  eexists. split; [apply AuditFacts.classify_ints|].
  destruct (medium_group_without_owner t && negb (g =? 0)),
    (bool_decide (medium_external_item_identities_gte t ≤ e)),
    (bool_decide (high_unique_items_gt t < u)),
    (high_direct_web_perms t && negb (d =? 0)),
    (critical_external_owner t && o), (critical_anyone_or_everyone t && a); reflexivity.
Qed.

(** X3. Counts that are not negative and flags: when none of them goes down,
    no rule that left a finding stops leaving one. *)
Theorem more_never_finds_less (t : thresholds) (u e d g u' e' d' g' : Z)
    (a o a' o' : bool) (fs fs' : list finding) :
  0 ≤ d ≤ d' → 0 ≤ g ≤ g' → u ≤ u' → e ≤ e' →
  implb a a' = true → implb o o' = true →
  classify rt t (int_counts u e d g a o) = Ok fs →
  classify rt t (int_counts u' e' d' g' a' o') = Ok fs' →
  Forall2 (λ b b', implb b b' = true) (rules_fired fs) (rules_fired fs').
Proof.
  intros Hd Hg Hu He Ha Ho Hfs Hfs'.
  destruct (rules_fired_ints t u e d g a o) as (x & Hx & Hfired).
  destruct (rules_fired_ints t u' e' d' g' a' o') as (x' & Hx' & Hfired').
  rewrite Hfs in Hx. injection Hx as <-. rewrite Hfs' in Hx'. injection Hx' as <-.
  rewrite Hfired, Hfired'. clear Hfired Hfired' Hfs Hfs'.
  assert (implb (negb (d =? 0)) (negb (d' =? 0)) = true) as Hdd.
  { destruct (Z.eqb_spec d 0), (Z.eqb_spec d' 0); cbn; try done; lia. }
  assert (implb (negb (g =? 0)) (negb (g' =? 0)) = true) as Hgg.
  { destruct (Z.eqb_spec g 0), (Z.eqb_spec g' 0); cbn; try done; lia. }
  assert (implb (bool_decide (high_unique_items_gt t < u))
            (bool_decide (high_unique_items_gt t < u')) = true) as Huu.
  { destruct (bool_decide_reflect (high_unique_items_gt t < u)),
      (bool_decide_reflect (high_unique_items_gt t < u')); cbn; try done; lia. }
  assert (implb (bool_decide (medium_external_item_identities_gte t ≤ e))
            (bool_decide (medium_external_item_identities_gte t ≤ e')) = true) as Hee.
  { destruct (bool_decide_reflect (medium_external_item_identities_gte t ≤ e)),
      (bool_decide_reflect (medium_external_item_identities_gte t ≤ e')); cbn; try done; lia. }
  repeat constructor; try done.
  - by destruct (critical_anyone_or_everyone t), a, a'.
  - by destruct (critical_external_owner t), o, o'.
  - destruct (high_direct_web_perms t); [exact Hdd | done].
  - destruct (medium_group_without_owner t); [exact Hgg | done].
Qed.

(** X8. When the renderer raises, the body of the hypertext form is the plain
    form between [<pre>] and [</pre>] with [&] and [<] replaced: no [<] is
    left in it, and the plain form can be read back from it. *)
Theorem fallback_body_is_escaped (md : string) (e : exn) :
  markdown_html rt md = Raise e →
  ∃ body, html_body rt md = "<pre>" ++ body ++ "</pre>"
    ∧ all_chars (λ c, negb (Ascii.eqb c "<")) body = true
    ∧ unescape body = md.
Proof.
  intros Hr. unfold html_body. rewrite Hr. eexists. split; [reflexivity|].
  apply fallback_escape.
Qed.

(** X9. The plain form does not depend on the renderer, and neither does
    whether [analyze] returns or what it raises: rendering cannot fail the
    analysis. *)
Theorem plain_report_ignores_renderer (render : string → result string) (tree : Fs.fs)
    (now : string) (json_path : Fs.path) (t : thresholds) (supplied : bool) :
  plain (analyze (with_markdown render rt) tree now json_path t supplied)
  = plain (analyze rt tree now json_path t supplied).
Proof.
  unfold analyze, analyze_data.
  destruct (Fs.read_text json_path tree) as [text|e]; [|reflexivity]. cbn.
  destruct (json_loads rt text) as [data|e]; [|reflexivity]. cbn.
  destruct (normalize data) as [c|e]; [|reflexivity]. cbn.
  change (classify (with_markdown render rt) t c) with (classify rt t c).
  destruct (classify rt t c) as [fs|e]; reflexivity.
Qed.

Lemma normalize_raises_attribute_error (data : pyval) (e : exn) :
  normalize data = Raise e → ∃ msg, e = AttributeError msg.
Proof.
  unfold normalize.
  destruct data as [| | | | | |d]; try (intros [= <-]; by eexists).
  cbn. destruct (d !! "metrics") as [[| | | | | |m]|]; try (intros [= <-]; by eexists);
    intros [=].
Qed.

Lemma classify_raises_type_error (t : thresholds) (c : counts) (e : exn) :
  classify rt t c = Raise e → ∃ msg, e = TypeError msg.
Proof.
  unfold classify, py_gt, py_ge, cmp_int.
  destruct (unique_items c), (external_identities c); cbn; intros [=]; by eexists.
Qed.

(** X7. The ways [analyze] fails are four: the artifact cannot be read; its
    text is no JSON; the top level or [metrics] is no object, which is an
    [AttributeError]; or a count that is compared is no number, which is a
    [TypeError]. Writing the report never fails. *)
Theorem analyze_failures (tree : Fs.fs) (now : string) (json_path : Fs.path)
    (t : thresholds) (supplied : bool) (e : exn) :
  analyze rt tree now json_path t supplied = Raise e →
  Fs.read_text json_path tree = Raise e
  ∨ ∃ text, Fs.read_text json_path tree = Ok text
      ∧ (json_loads rt text = Raise e
         ∨ ∃ data, json_loads rt text = Ok data
             ∧ ((normalize data = Raise e ∧ ∃ msg, e = AttributeError msg)
                ∨ ∃ c, normalize data = Ok c ∧ classify rt t c = Raise e
                    ∧ ∃ msg, e = TypeError msg)).
Proof.
  unfold analyze, analyze_data.
  destruct (Fs.read_text json_path tree) as [text|e1]; [|intros [= <-]; by left].
  cbn. intros He. right. exists text. split; [done|].
  destruct (json_loads rt text) as [data|e2]; [|injection He as <-; by left].
  cbn in He. right. exists data. split; [done|].
  destruct (normalize data) as [c|e3] eqn:Hn.
  - cbn in He. right. exists c. split; [done|].
    destruct (classify rt t c) as [fs|e4] eqn:Hc; [done|]. cbn in He. injection He as <-.
    split; [done|]. by apply classify_raises_type_error in Hc.
  - cbn in He. injection He as <-. left. split; [done|].
    by apply normalize_raises_attribute_error in Hn.
Qed.

End More.

Lemma findings_in_rule_order_witness :
  [("High", "Items with unique permissions: 300")]
    `sublist_of` rule_findings Demo.runtime (int_counts 300 5 0 0 false false)
  ∧ (length [("High", "Items with unique permissions: 300")] ≤ 6)%nat
  ∧ never_rises (map (λ f : finding, severity_rank f.1)
                   [("High", "Items with unique permissions: 300")]) = true.
Proof.
  apply (findings_in_rule_order Demo.runtime DEFAULT_THRESHOLDS
           (int_counts 300 5 0 0 false false)).
  reflexivity.
Defined.

Lemma normalized_counts_are_truthy_or_zero_witness :
  Forall (λ v, truthy v = true ∨ v = PInt 0) [PInt 0; PInt 0; PInt 0; PInt 0].
Proof.
  apply (normalized_counts_are_truthy_or_zero
           (PDict {[ "metrics" := PDict {[ "externalUsers" := PNone ]} ]}) default_counts).
  reflexivity.
Defined.

Lemma normalize_reads_six_keys_witness :
  normalize (PDict {[ "metrics" := PDict {[ "scanned" := PInt 7 ]} ]}) = normalize (PDict ∅).
Proof.
  apply (normalize_reads_six_keys _ _ {[ "scanned" := PInt 7 ]} ∅);
    [reflexivity | reflexivity | repeat constructor].
Defined.

Lemma more_never_finds_less_witness :
  Forall2 (λ b b', implb b b' = true)
    (rules_fired [("High", "Items with unique permissions: 300")])
    (rules_fired [ ("High", "Direct user permissions at web scope: 2");
                   ("High", "Items with unique permissions: 301") ]).
Proof.
  apply (more_never_finds_less Demo.runtime DEFAULT_THRESHOLDS 300 5 0 0 301 5 2 0
           false false false false); try reflexivity; lia.
Defined.

Lemma fallback_body_is_escaped_witness :
  ∃ body, html_body Demo.runtime "a < b & c" = "<pre>" ++ body ++ "</pre>"
    ∧ all_chars (λ c, negb (Ascii.eqb c "<")) body = true
    ∧ unescape body = "a < b & c".
Proof.
  apply (fallback_body_is_escaped Demo.runtime "a < b & c"
           (OSError "No module named 'markdown'")).
  reflexivity.
Defined.

Lemma analyze_failures_witness :
  let tree := Fs.store ["audit.json"] "null" Fs.empty in
  let e := AttributeError "'NoneType' object has no attribute 'get'" in
  Fs.read_text ["audit.json"] tree = Raise e
  ∨ ∃ text, Fs.read_text ["audit.json"] tree = Ok text
      ∧ (json_loads Demo.runtime text = Raise e
         ∨ ∃ data, json_loads Demo.runtime text = Ok data
             ∧ ((normalize data = Raise e ∧ ∃ msg, e = AttributeError msg)
                ∨ ∃ c, normalize data = Ok c ∧ classify Demo.runtime DEFAULT_THRESHOLDS c = Raise e
                    ∧ ∃ msg, e = TypeError msg)).
Proof.
  apply (analyze_failures Demo.runtime (Fs.store ["audit.json"] "null" Fs.empty)
           "2026-01-01T00:00:00" ["audit.json"] DEFAULT_THRESHOLDS false).
  reflexivity.
Defined.

End AuditMore.

(** ** More on the site list and the names of the directories *)

Module SitesMore.
Import Sites Agent.

Lemma lstrip_keeps (drop : ascii → bool) (c : ascii) (r : string) :
  drop c = false → lstrip drop (String c r) = String c r.
Proof. intros Hc. cbn. by rewrite Hc. Qed.

Lemma lstrip_head (drop : ascii → bool) (s : string) :
  match lstrip drop s with
  | String c _ => drop c = false
  | EmptyString => True
  end.
Proof.
  induction s as [|c r IH]; [done|]. cbn. destruct (drop c) eqn:Hc; [exact IH | exact Hc].
Qed.

Lemma rstrip_head (drop : ascii → bool) (c : ascii) (r : string) :
  drop c = false → ∃ r', rstrip drop (String c r) = String c r'.
Proof.
  intros Hc. cbn. destruct (rstrip drop r); [rewrite Hc|]; by eexists.
Qed.

Lemma rstrip_cons (drop : ascii → bool) (c : ascii) (r : string) :
  rstrip drop (String c r) =
    match rstrip drop r with
    | EmptyString => if drop c then EmptyString else String c EmptyString
    | r' => String c r'
    end.
Proof. reflexivity. Qed.

Lemma rstrip_idem (drop : ascii → bool) (s : string) :
  rstrip drop (rstrip drop s) = rstrip drop s.
Proof.
  induction s as [|c r IH]; [done|]. rewrite rstrip_cons.
  destruct (rstrip drop r) as [|c' r'] eqn:Hr.
  - destruct (drop c) eqn:Hc; [done|]. rewrite rstrip_cons. cbn. by rewrite Hc.
  - rewrite rstrip_cons, IH. done.
Qed.

Lemma strip_idem (drop : ascii → bool) (s : string) :
  strip drop (strip drop s) = strip drop s.
Proof.
  unfold strip. pose proof (lstrip_head drop s) as Hh.
  destruct (lstrip drop s) as [|c r] eqn:Hl; [done|].
  destruct (rstrip_head drop c r Hh) as [r' Hr]. rewrite Hr.
  rewrite (lstrip_keeps drop c r' Hh), <- Hr. apply rstrip_idem.
Qed.

Lemma strip_all_kept (drop : ascii → bool) (s : string) :
  all_chars (λ c, negb (drop c)) s = true → strip drop s = s.
Proof.
  intros Hs. unfold strip.
  assert (lstrip drop s = s) as ->.
  { destruct s as [|c r]; [done|]. cbn in Hs. apply andb_true_iff in Hs as [Hc _].
    apply lstrip_keeps. by destruct (drop c). }
  induction s as [|c r IH]; [done|]. cbn in Hs. apply andb_true_iff in Hs as [Hc Hr].
  cbn. rewrite (IH Hr). destruct r; [|done]. by destruct (drop c).
Qed.

Lemma sub_runs_id (s : string) : all_chars in_class s = true → sub_runs false s = s.
Proof.
  induction s as [|c r IH]; [done|]. cbn. intros [Hc Hr]%andb_true_iff.
  by rewrite Hc, (IH Hr).
Qed.

Lemma in_class_not_slash (s : string) :
  all_chars in_class s = true → all_chars (λ c, negb (Ascii.eqb "/" c)) s = true.
Proof.
  induction s as [|c r IH]; [done|]. cbn [all_chars]. intros [Hc Hr]%andb_true_iff.
  apply andb_true_iff. split; [|exact (IH Hr)].
  destruct (Ascii.eqb_spec "/" c) as [<-|]; done.
Qed.

Lemma safe_name_of_safe (s : string) : all_chars in_class s = true → safe_name s = s.
Proof.
  intros Hs. unfold safe_name. rewrite (strip_all_kept _ _ (in_class_not_slash s Hs)).
  by apply sub_runs_id.
Qed.

(** X10. A name is left as it is exactly when all its characters are in the
    class; so the name of a name is that name. *)
Theorem safe_name_fixed_points (site : string) :
  (safe_name site = site ↔ all_chars in_class site = true)
  ∧ safe_name (safe_name site) = safe_name site.
Proof.
  split; [split|].
  - intros <-. apply SitesFacts.sub_runs_in_class.
  - apply safe_name_of_safe.
  - apply safe_name_of_safe, SitesFacts.sub_runs_in_class.
Qed.

Lemma rstrip_snoc (drop : ascii → bool) (c : ascii) (s : string) :
  drop c = true → rstrip drop (s ++ String c "") = rstrip drop s.
Proof.
  intros Hc. induction s as [|x r IH].
  - change (rstrip drop (String c "") = ""). rewrite rstrip_cons. cbn [rstrip]. by rewrite Hc.
  - change (String x r ++ String c "") with (String x (r ++ String c "")).
    by rewrite !rstrip_cons, IH.
Qed.

Lemma lstrip_all (drop : ascii → bool) (s : string) :
  all_chars drop s = true → lstrip drop s = "".
Proof.
  induction s as [|x r IH]; [done|]. cbn. intros [-> Hr]%andb_true_iff. auto.
Qed.

Lemma lstrip_snoc (drop : ascii → bool) (c : ascii) (s : string) :
  drop c = true →
  lstrip drop (s ++ String c "") =
    if all_chars drop s then "" else lstrip drop s ++ String c "".
Proof.
  intros Hc. induction s as [|x r IH].
  - change (lstrip drop (String c "") = ""). cbn [lstrip]. by rewrite Hc.
  - change (String x r ++ String c "") with (String x (r ++ String c "")).
    cbn [lstrip all_chars]. destruct (drop x); [exact IH | done].
Qed.

Lemma strip_snoc (drop : ascii → bool) (c : ascii) (s : string) :
  drop c = true → strip drop (s ++ String c "") = strip drop s.
Proof.
  intros Hc. unfold strip. rewrite (lstrip_snoc drop c s Hc).
  destruct (all_chars drop s) eqn:Hs.
  - by rewrite (lstrip_all drop s Hs).
  - by apply rstrip_snoc.
Qed.

(** X11. A slash before or after a site identifier does not change the name of
    its directory: the identifier with and without it share one. *)
Theorem safe_name_ignores_outer_slashes (site : string) :
  safe_name ("/" ++ site) = safe_name site
  ∧ safe_name (site ++ "/") = safe_name site.
Proof.
  unfold safe_name. split; [reflexivity|]. by rewrite strip_snoc.
Qed.

Lemma strip_empty (drop : ascii → bool) (s : string) :
  strip drop s = "" ↔ all_chars drop s = true.
Proof.
  unfold strip. split.
  - induction s as [|x r IH]; [done|]. cbn. destruct (drop x) eqn:Hx; [exact IH|].
    rewrite rstrip_cons. destruct (rstrip drop r); [by rewrite Hx | done].
  - intros Hs. by rewrite (lstrip_all drop s Hs).
Qed.

Lemma sub_runs_empty (b : bool) (s : string) : sub_runs b s = "" → s = "" ∨ b = true.
Proof.
  destruct s as [|c r]; [by left|]. cbn. destruct (in_class c); [done|].
  destruct b; [by right | done].
Qed.

(** X12. The name is empty, and the directory of the site is [site-], exactly
    when the identifier is made of slashes only, the empty identifier
    among them. *)
Theorem safe_name_empty (site : string) :
  safe_name site = "" ↔ all_chars (Ascii.eqb "/") site = true.
Proof.
  unfold safe_name. rewrite <- strip_empty. split.
  - intros [H|H]%sub_runs_empty; done.
  - by intros ->.
Qed.

Lemma lstrip_space_keeps (s : string) : lead_space s = false → lstrip_space s = s.
Proof.
  destruct s as [|a [|b [|c r]]]; [done|..]; cbn [lead_space lstrip_space].
  - rewrite orb_false_r. by intros ->.
  - rewrite orb_false_r. intros [-> ->]%orb_false_iff. done.
  - intros [-> [-> ->]%orb_false_iff]%orb_false_iff. done.
Qed.

Lemma lstrip_space_no_lead (n : nat) (s : string) :
  (String.length s ≤ n)%nat → lead_space (lstrip_space s) = false.
Proof.
  revert s. induction n as [|n IH]; intros s Hn.
  { destruct s; [done | cbn in Hn; lia]. }
  destruct s as [|a r]; [done|]. cbn [String.length] in Hn. cbn [lstrip_space].
  destruct (is_space a) eqn:Ha; [apply IH; lia|].
  destruct r as [|b r'].
  { cbn [lead_space]. by rewrite Ha. }
  cbn [String.length] in Hn.
  destruct (is_space2 a b) eqn:Hb; [apply IH; lia|].
  destruct r' as [|c r''].
  { cbn [lead_space]. by rewrite Ha, Hb. }
  cbn [String.length] in Hn.
  destruct (is_space3 a b c) eqn:Hc; [apply IH; lia|].
  cbn [lead_space]. by rewrite Ha, Hb, Hc.
Qed.

Lemma lead_space_prefix (x rest : string) :
  lead_space (x ++ rest) = false → lead_space x = false.
Proof.
  destruct x as [|a [|b [|c r]]]; [done|..]; cbv [String.append]; fold String.append;
    cbn [lead_space].
  - intros [-> _]%orb_false_iff. done.
  - intros [-> Hb]%orb_false_iff. destruct (is_space2 a b); [|done].
    by destruct rest.
  - intros [-> [-> ->]%orb_false_iff]%orb_false_iff. done.
Qed.

Lemma rstrip_space_prefix (s : string) : ∃ rest, s = rstrip_space s ++ rest.
Proof.
  induction s as [|a r [rest IH]]; [by exists ""|]. cbn [rstrip_space].
  destruct (is_space_char (String a (rstrip_space r))).
  - by exists (String a r).
  - exists rest. cbv [String.append]; fold String.append.
    change ((fix append (s1 s2 : string) {struct s1} : string :=
               match s1 with
               | "" => s2
               | String c s1' => String c (append s1' s2)
               end) (rstrip_space r) rest) with (rstrip_space r ++ rest).
    by rewrite <- IH.
Qed.

Lemma rstrip_space_idem (s : string) : rstrip_space (rstrip_space s) = rstrip_space s.
Proof.
  induction s as [|a r IH]; [done|]. cbn [rstrip_space].
  destruct (is_space_char (String a (rstrip_space r))) eqn:Hc; [done|].
  cbn [rstrip_space]. by rewrite IH, Hc.
Qed.

Lemma strip_space_idem (s : string) : strip_space (strip_space s) = strip_space s.
Proof.
  unfold strip_space.
  pose proof (lstrip_space_no_lead (String.length s) s (le_n _)) as Hlead.
  destruct (rstrip_space_prefix (lstrip_space s)) as [rest Hrest].
  rewrite Hrest in Hlead. apply lead_space_prefix in Hlead.
  rewrite (lstrip_space_keeps _ Hlead). apply rstrip_space_idem.
Qed.

(** X13. The list of sites follows the rows: the sites of two lists of rows,
    one after the other, are the sites of the first followed by those of
    the second, there is a site at most for each row, and each site is the
    entry of a row, not empty before stripping, with the whitespace of
    [str.strip] (the Unicode one, U+00A0 and U+0085 included) removed from
    both ends, so that stripping it again changes nothing. *)
Theorem sites_follow_rows (rows rows' : list row) :
  sites_of_rows (rows ++ rows')%list = (sites_of_rows rows ++ sites_of_rows rows')%list
  ∧ (length (sites_of_rows rows) ≤ length rows)%nat
  ∧ Forall (λ site, strip_space site = site
              ∧ ∃ r url, r ∈ rows ∧ r !! "SiteUrl" = Some url ∧ url ≠ ""
                  ∧ site = strip_space url) (sites_of_rows rows).
Proof.
  rewrite !SitesFacts.sites_of_rows_kept. split; [apply omap_app|]. split.
  - induction rows as [|r rest IH]; [done|]. cbn. destruct (kept r); cbn; lia.
  - apply Forall_forall. intros site (r & Hr & Hk)%list_elem_of_omap.
    unfold kept in Hk. destruct (r !! "SiteUrl") as [url|] eqn:Hu; [|done]. cbn in Hk.
    destruct (String.eqb_spec url "") as [->|Hne]; [done|]. injection Hk as <-.
    split; [apply strip_space_idem | by exists r, url].
Qed.

Lemma strip_prefix_spec (p s r : string) : strip_prefix p s = Some r ↔ s = p ++ r.
Proof.
  revert s. induction p as [|a p IH]; intros s.
  - cbn. split; [by intros [= ->] | by intros ->].
  - destruct s as [|b s]; [done|]. cbn. change (String a p ++ r) with (String a (p ++ r)).
    destruct (Ascii.eqb_spec a b) as [->|Hab].
    + rewrite IH. split; [by intros -> | by intros [= ->]].
    + split; [done | intros [= <- _]; done].
Qed.

Lemma span_spec (keep : ascii → bool) (s : string) :
  let (a, b) := span keep s in
  s = a ++ b ∧ all_chars keep a = true
  ∧ match b with String c _ => keep c = false | EmptyString => True end.
Proof.
  induction s as [|c r IH]; [done|]. cbn. destruct (keep c) eqn:Hc.
  - destruct (span keep r) as [a b]. destruct IH as (-> & Ha & Hb).
    split; [done|]. split; [|exact Hb]. cbn [all_chars]. by rewrite Hc, Ha.
  - done.
Qed.

Lemma span_unique (keep : ascii → bool) (a b : string) :
  all_chars keep a = true →
  match b with String c _ => keep c = false | EmptyString => True end →
  span keep (a ++ b) = (a, b).
Proof.
  intros Ha Hb. induction a as [|c r IH].
  - destruct b as [|c r]; [done|]. change (span keep (String c r) = ("", String c r)).
    cbn [span]. by rewrite Hb.
  - cbn [all_chars] in Ha. apply andb_true_iff in Ha as [Hc Hr].
    change (String c r ++ b) with (String c (r ++ b)). cbn [span]. by rewrite Hc, (IH Hr).
Qed.

Lemma match_tenant_spec (site_url tenant : string) :
  match_tenant site_url = Some tenant
  ↔ tenant ≠ "" ∧ all_chars is_tenant_char tenant = true
    ∧ ∃ rest, site_url = "https://" ++ tenant ++ ".sharepoint.com/" ++ rest.
Proof.
  unfold match_tenant. split.
  - destruct (strip_prefix "https://" site_url) as [s|] eqn:Hs; [|done].
    cbn [mbind option_bind]. apply strip_prefix_spec in Hs as ->.
    pose proof (span_spec is_tenant_char s) as Hsp.
    destruct (span is_tenant_char s) as [a b]. destruct Hsp as (-> & Ha & _).
    destruct (String.eqb_spec a "") as [->|Hne]; [done|].
    destruct (strip_prefix ".sharepoint.com/" b) as [rest|] eqn:Hb; [|done].
    cbn [mbind option_bind]. intros [= <-]. apply strip_prefix_spec in Hb as ->. eauto.
  - intros (Hne & Ha & rest & ->).
    assert (strip_prefix "https://" ("https://" ++ tenant ++ ".sharepoint.com/" ++ rest)
            = Some (tenant ++ ".sharepoint.com/" ++ rest)) as -> by by apply strip_prefix_spec.
    cbn [mbind option_bind]. rewrite (span_unique is_tenant_char tenant _ Ha) by done.
    destruct (String.eqb_spec tenant "") as [->|_]; [done|].
    by assert (strip_prefix ".sharepoint.com/" (".sharepoint.com/" ++ rest) = Some rest)
      as -> by by apply strip_prefix_spec.
Qed.

(** X14. The admin address is derived exactly for the addresses that begin with
    [https://], a tenant name of letters, digits and hyphens that is not
    empty, and [.sharepoint.com/]; it is made of that tenant name. Every
    other address raises a [ValueError] that names it. *)
Theorem derive_admin_url_matches (site_url : string) :
  (∀ admin, derive_admin_url site_url = Ok admin
     ↔ ∃ tenant rest,
         site_url = "https://" ++ tenant ++ ".sharepoint.com/" ++ rest
         ∧ tenant ≠ "" ∧ all_chars is_tenant_char tenant = true
         ∧ admin = "https://" ++ tenant ++ "-admin.sharepoint.com")
  ∧ (∀ e, derive_admin_url site_url = Raise e
       → e = ValueError ("Unsupported SharePoint URL: " ++ site_url)).
Proof.
  unfold derive_admin_url. split.
  - intros admin. split.
    + destruct (match_tenant site_url) as [tenant|] eqn:Hm; [|done].
      intros [= <-]. apply match_tenant_spec in Hm as (Hne & Ha & rest & ->).
      by exists tenant, rest.
    + intros (tenant & rest & Hu & Hne & Ha & ->).
      assert (match_tenant site_url = Some tenant) as ->; [|done].
      apply match_tenant_spec. eauto.
  - intros e. destruct (match_tenant site_url); [done | by intros [= <-]].
Qed.

(** X15. The address of a tenant's root site without a slash after the host
    name is not supported, whatever the tenant. *)
Theorem root_url_needs_its_slash (tenant : string) :
  all_chars is_tenant_char tenant = true →
  derive_admin_url ("https://" ++ tenant ++ ".sharepoint.com")
  = Raise (ValueError ("Unsupported SharePoint URL: https://" ++ tenant ++ ".sharepoint.com")).
Proof.
  intros Ht. unfold derive_admin_url.
  destruct (match_tenant _) as [t'|] eqn:Hm; [|done].
  apply match_tenant_spec in Hm as (_ & Ha & rest & Hu). exfalso.
  apply (f_equal (strip_prefix "https://")) in Hu.
  assert (∀ s, strip_prefix "https://" ("https://" ++ s) = Some s) as Hp
    by (intros s; by apply strip_prefix_spec).
  rewrite !Hp in Hu. injection Hu as Hu.
  apply (f_equal (span is_tenant_char)) in Hu.
  rewrite !span_unique in Hu by done. by injection Hu as _ Hu.
Qed.

Lemma root_url_needs_its_slash_witness :
  derive_admin_url "https://contoso.sharepoint.com"
  = Raise (ValueError "Unsupported SharePoint URL: https://contoso.sharepoint.com").
Proof. apply (root_url_needs_its_slash "contoso"). reflexivity. Defined.

End SitesMore.

(** ** The shell, the time stamp and the quoting *)

Module ProgramsFacts.
Import Sites Programs.

Lemma which_prog_skips (which : string → option string) (before after : list string) :
  Forall (λ c, found which c = false) before →
  which_prog which (before ++ after)%list = which_prog which after.
Proof.
  induction 1 as [|c rest Hc _ IH]; [done|]. cbn. unfold found in Hc.
  destruct (which c) as [p|]; [|done]. by rewrite Hc.
Qed.

(** X16. [which_prog] gives the path of the first candidate that is found, and
    [None] exactly when no candidate is found. *)
Theorem which_prog_first_found (which : string → option string) (cands : list string) :
  (∀ p, which_prog which cands = Some p
     ↔ ∃ before c after,
         cands = (before ++ c :: after)%list
         ∧ Forall (λ c', found which c' = false) before
         ∧ which c = Some p ∧ p ≠ "")
  ∧ (which_prog which cands = None ↔ Forall (λ c, found which c = false) cands).
Proof.
  split.
  - intros p. split.
    + induction cands as [|c rest IH]; [done|]. cbn.
      destruct (which c) as [q|] eqn:Hq.
      * destruct (String.eqb_spec q "") as [->|Hne]; cbn.
        -- intros (before & c' & after & -> & Hb & Hc)%IH.
           exists (c :: before), c', after. split; [done|]. split; [|done].
           constructor; [|done]. unfold found. by rewrite Hq.
        -- intros [= <-]. exists [], c, rest. repeat split; [constructor | done..].
      * intros (before & c' & after & -> & Hb & Hc)%IH.
        exists (c :: before), c', after. split; [done|]. split; [|done].
        constructor; [|done]. unfold found. by rewrite Hq.
    + intros (before & c & after & -> & Hb & Hc & Hne).
      rewrite (which_prog_skips which before _ Hb). cbn. rewrite Hc.
      by destruct (String.eqb_spec p "").
  - split.
    + induction cands as [|c rest IH]; [constructor|]. cbn. intros Hn.
      destruct (which c) as [q|] eqn:Hq.
      * destruct (String.eqb_spec q "") as [->|Hne]; cbn in Hn; [|done].
        constructor; [|by apply IH]. unfold found. by rewrite Hq.
      * constructor; [|by apply IH]. unfold found. by rewrite Hq.
    + intros Hn. rewrite <- (app_nil_r cands). by rewrite (which_prog_skips which cands [] Hn).
Qed.

(** X17. The shell is [pwsh] where the machine has it, else [powershell] where
    the machine has that, else the bare name [pwsh]; it is never the empty
    text. *)
Theorem powershell_choice (which : string → option string) :
  POWERSHELL which ≠ ""
  ∧ (∀ p, found which "pwsh" = true → which "pwsh" = Some p → POWERSHELL which = p)
  ∧ (∀ p, found which "pwsh" = false → found which "powershell" = true →
          which "powershell" = Some p → POWERSHELL which = p)
  ∧ (found which "pwsh" = false → found which "powershell" = false →
     POWERSHELL which = "pwsh").
Proof.
  unfold POWERSHELL, found. cbn [which_prog].
  destruct (which "pwsh") as [p1|]; [destruct (String.eqb_spec p1 "") as [->|H1]|];
    (destruct (which "powershell") as [p2|]; [destruct (String.eqb_spec p2 "") as [->|H2]|]);
    cbn [negb];
    repeat match goal with
           | |- context [String.eqb ?x ""] => destruct (String.eqb_spec x ""); cbn [negb]
           end;
    repeat split; try done; intros; simplify_eq; done.
Qed.

Lemma undouble_app_quote (s : string) :
  undouble (String "'" (String "'" s)) = String "'" <$> undouble s.
Proof. reflexivity. Qed.

(** X18. Doubling the quotes loses nothing and lets no quote stand alone:
    read as a quoted string, the text handed to the scripts is the
    password again, whatever characters it has. *)
Theorem password_quotes_doubled (pfx_pass : string) :
  undouble (replace_char "'" "''" pfx_pass) = Some pfx_pass.
Proof.
  induction pfx_pass as [|c r IH]; [done|]. cbn [replace_char].
  destruct (Ascii.eqb_spec c "'") as [->|Hc].
  - change ("''" ++ ?s) with (String "'" (String "'" s)).
    by rewrite undouble_app_quote, IH.
  - cbn [undouble]. destruct (Ascii.eqb_spec c "'"); [done|]. by rewrite IH.
Qed.

Lemma digit_cases (n : Z) :
  0 ≤ n ≤ 9 →
  n = 0 ∨ n = 1 ∨ n = 2 ∨ n = 3 ∨ n = 4 ∨ n = 5 ∨ n = 6 ∨ n = 7 ∨ n = 8 ∨ n = 9.
Proof. lia. Qed.

Lemma digit_in_class (n : Z) : 0 ≤ n ≤ 9 → in_class (digit n) = true.
Proof.
  intros Hn. destruct (digit_cases n Hn) as [->|[->|[->|[->|[->|[->|[->|[->|[->| ->]]]]]]]]];
    reflexivity.
Qed.

Lemma digit_inj (n m : Z) : 0 ≤ n ≤ 9 → 0 ≤ m ≤ 9 → digit n = digit m → n = m.
Proof.
  intros Hn Hm.
  destruct (digit_cases n Hn) as [->|[->|[->|[->|[->|[->|[->|[->|[->| ->]]]]]]]]];
    destruct (digit_cases m Hm) as [->|[->|[->|[->|[->|[->|[->|[->|[->| ->]]]]]]]]];
    (reflexivity || (intros [=])).
Qed.

Ltac dlia := Z.div_mod_to_equations; lia.

Lemma pad2_inj (n m : Z) : 0 ≤ n ≤ 99 → 0 ≤ m ≤ 99 → pad2 n = pad2 m → n = m.
Proof.
  intros Hn Hm [= H1 H2].
  apply digit_inj in H1; [|dlia..]. apply digit_inj in H2; [|dlia..]. dlia.
Qed.

Lemma pad2_in_class (n : Z) : 0 ≤ n ≤ 99 → all_chars in_class (pad2 n) = true.
Proof.
  intros Hn. cbv [pad2 all_chars]. rewrite !digit_in_class; [done|dlia..].
Qed.

Lemma valid_ranges (d : datetime) :
  valid d = true →
  1000 ≤ year d ≤ 9999 ∧ 1 ≤ month d ≤ 12 ∧ 1 ≤ day d ≤ 31
  ∧ 0 ≤ hour d ≤ 23 ∧ 0 ≤ minute d ≤ 59 ∧ 0 ≤ second d ≤ 59.
Proof. unfold valid. rewrite !andb_true_iff, !Z.leb_le. tauto. Qed.

(** X19. The name of the run directory has nineteen characters, all of them in
    the class of the safe names, and two clocks give the same name exactly
    when they show the same second: runs that start within one second
    share their directory, and no others do. *)
Theorem run_stamp (now now' : datetime) :
  valid now = true → valid now' = true →
  String.length (ts now) = 19%nat
  ∧ all_chars in_class (ts now) = true
  ∧ (ts now = ts now' ↔ now = now').
Proof.
  intros (Hy & Hm & Hd & Hh & Hi & Hs)%valid_ranges (Hy' & Hm' & Hd' & Hh' & Hi' & Hs')%valid_ranges.
  split; [reflexivity|]. split.
  - cbv [ts pad4 pad2 String.append all_chars].
    rewrite !digit_in_class; [done|dlia..].
  - split; [|by intros ->].
    destruct now as [y m d hh mi s], now' as [y' m' d' hh' mi' s']. cbn in *.
    unfold ts, pad4. cbn [year month day hour minute second].
    intros H. cbv [pad2 String.append] in H.
    injection H as Hy1 Hy2 Hy3 Hy4 Hm1 Hm2 Hd1 Hd2 Hh1 Hh2 Hi1 Hi2 Hs1 Hs2.
    apply digit_inj in Hy1, Hy2, Hy3, Hy4, Hm1, Hm2, Hd1, Hd2, Hh1, Hh2, Hi1, Hi2, Hs1, Hs2;
      try dlia.
    f_equal; dlia.
Qed.

Lemma run_stamp_witness :
  let now := {| year := 2026; month := 1; day := 1; hour := 0; minute := 0; second := 0 |} in
  let now' := {| year := 2026; month := 1; day := 1; hour := 0; minute := 0; second := 1 |} in
  String.length (ts now) = 19%nat
  ∧ all_chars in_class (ts now) = true
  ∧ (ts now = ts now' ↔ now = now').
Proof.
  apply (run_stamp
           {| year := 2026; month := 1; day := 1; hour := 0; minute := 0; second := 0 |}
           {| year := 2026; month := 1; day := 1; hour := 0; minute := 0; second := 1 |});
    reflexivity.
Defined.

End ProgramsFacts.

(** ** More on the orchestrator *)

Module AgentMore.
Import Fs Audit Sites Agent Observe Conduct.
#[local] Open Scope list_scope.

Lemma written_elem (ev : list event) (p : path) :
  p ∈ (written ev).*1 → ∃ text, WriteText p text ∈ ev.
Proof.
  intros ([q text] & -> & Hin)%list_elem_of_fmap. unfold written in Hin.
  apply list_elem_of_omap in Hin as (e & He & Heq). exists text.
  destruct e; try discriminate. by injection Heq as -> ->.
Qed.


Section WithHost.
Context {W : Type} (rt : Runtime) (h : Host W).
Context (a : args) (pfx_pass : string) (run_dir : path).

(** X20. An address that is not supported fails the grant stage before any
    command is started: where the directory of the site can be made, the
    pass makes it, announces the grant stage, and reports the failure with
    the address; the host is left as it was. *)
Theorem unsupported_url_spawns_nothing (site : string) (t t1 : fs) (w : W) (e : exn) :
  derive_admin_url site = Raise e →
  mkdir_p (site_dir_of run_dir site) t = (t1, Ok ()) →
  process_site rt h a pfx_pass run_dir site t w
  = ([ Mkdir (site_dir_of run_dir site); Stdout ("[grant] " +:+ site);
       Stderr ("Grant failed for " +:+ site +:+ ": Unsupported SharePoint URL: " +:+ site) ],
     t1, w, Ok (Failed Grant (ValueError ("Unsupported SharePoint URL: " +:+ site)))).
Proof.
  intros He Hm. unfold process_site.
  unfold mbind, M_bind, bind, try, mkdir, eprint, emit, mret, M_ret, ret.
  rewrite Hm.
  unfold grant_stage, grant_sites_selected, print, emit, lift.
  unfold mbind, M_bind, bind, mret, M_ret, ret. cbn.
  rewrite He. unfold derive_admin_url in He.
  destruct (match_tenant site); [done|]. by injection He as <-.
Qed.

End WithHost.

Section Main.
Context {W : Type} (rt : Runtime) (h : Host W).

(** X21. Whatever the tree and the host, a run keeps to its directories. It
    makes the output directory, the [logs] directory of the run and the
    directories of the listed sites, and no other; it writes the two
    reports of listed sites, and nothing else; every command it starts is
    the shell with [-NoProfile -Command] and a script, without a time limit
    or with the time budget in seconds. No directory is lost, and every
    file that is not the artifact or a report of a listed site is as it
    was, those below [logs] among them. *)
Theorem main_keeps_to_its_directories (a : args) (t : fs) (w : W) :
  let out_root := resolve h (output a) in
  let run_dir := out_root ++ [ts h w] in
  let sites := listed_sites h a w in
  let '(ev, t', _, _) := main rt h a t w in
  Forall (run_event h a out_root (ts h w) sites) ev
  ∧ dirs t ⊆ dirs t'
  ∧ (∀ p, (∀ site, site ∈ sites → p ∉ site_paths run_dir site) →
          files t' !! p = files t !! p)
  ∧ (∀ p, (run_dir ++ ["logs"]) `prefix_of` p → files t' !! p = files t !! p).
Proof.
  intros out_root run_dir sites.
  assert (∀ t' : fs,
    (∀ p, (∀ site, site ∈ sites → p ∉ site_paths run_dir site) →
          files t' !! p = files t !! p) →
    ∀ p, (run_dir ++ ["logs"]) `prefix_of` p → files t' !! p = files t !! p) as Hlogs.
  { intros t' Hf p [q ->]. apply Hf. intros site _ Hin.
    assert (∃ leaf, (run_dir ++ ["logs"]) ++ q = site_dir_of run_dir site ++ [leaf])
      as [leaf Heq].
    { unfold site_paths, audit_json, report_md, report_html in Hin.
      apply elem_of_cons in Hin as [->|Hin]; [by eexists|].
      apply elem_of_cons in Hin as [->|Hin]; [by eexists|].
      apply list_elem_of_singleton in Hin as ->. by eexists. }
    unfold site_dir_of in Heq. rewrite <- !app_assoc in Heq.
    apply app_inv_head in Heq. cbn in Heq. by injection Heq. }
  destruct (environ_get h (pfx_pass_env a)) as [[|c pass]|] eqn:Henv.
  1,3: rewrite AgentFacts.main_unset by (rewrite Henv; done); by auto.
  rewrite (AgentFacts.main_steps rt h a (String c pass) t w Henv) by done.
  fold out_root run_dir.
  assert (run_event h a out_root (ts h w) sites (Mkdir out_root)) as Ho by by left.
  assert (run_event h a out_root (ts h w) sites (Mkdir (run_dir ++ ["logs"]))) as Hl
    by (right; by left).
  destruct (mkdir_p out_root t) as [t1 r1] eqn:H1.
  apply AgentFacts.mkdir_p_grows in H1 as (Hf1 & _ & Hd1).
  destruct r1 as [[]|e1].
  2:{ split; [by repeat constructor|]. split; [done|]. split; intros; by rewrite ?Hf1; auto. }
  destruct (mkdir_p (run_dir ++ ["logs"]) t1) as [t2 r2] eqn:H2.
  apply AgentFacts.mkdir_p_grows in H2 as (Hf2 & _ & Hd2).
  assert (dirs t ⊆ dirs t2) as Hd by by etrans.
  destruct r2 as [[]|e2].
  2:{ split; [by repeat constructor|]. split; [done|].
      split; intros; by rewrite Hf2, Hf1. }
  unfold sites, listed_sites in *.
  destruct (site_list h a w) as [[|site rest]|e3].
  1,3: split; [by repeat constructor|]; split; [done|];
       split; intros; by rewrite Hf2, Hf1.
  destruct (AgentFacts.for_sites_spec rt h run_dir a (String c pass) (site :: rest) t2 w)
    as (blocks & outcomes & tail & t' & w' & r & Hr & Hev & Hd' & _ & Hf' & _).
  rewrite Hr.
  assert (Forall (run_event h a out_root (ts h w) (site :: rest)) (concat blocks ++ tail))
    as Hrun.
  { eapply Forall_impl; [exact Hev|]. intros e (s & Hin & He).
    destruct e as [| |p|cmd limit|p text]; [done|done| | |]; cbn in He |- *.
    - right. right. by exists s.
    - done.
    - by exists s. }
  assert (∀ p, (∀ s, s ∈ site :: rest → p ∉ site_paths run_dir s) →
               files t' !! p = files t !! p) as Hf.
  { intros p Hp. rewrite Hf', Hf2, Hf1; [done| |].
    - intros (s & -> & Hs)%list_elem_of_fmap. apply (Hp s Hs). by left.
    - intros (text & Hin)%written_elem.
      assert (WriteText p text ∈ concat blocks ++ tail) as Hin' by (apply elem_of_app; by left).
      rewrite Forall_forall in Hev. destruct (Hev _ Hin') as (s & Hs & He).
      apply (Hp s Hs). cbn in He. unfold site_paths.
      destruct He as [-> | ->]; [right; by left | right; right; by left]. }
  destruct r as [os|e4].
  - split; [|split; [by etrans | by auto]].
    constructor; [done|]. constructor; [done|]. apply Forall_app_2; [done|].
    by repeat constructor.
  - split; [by repeat constructor|]. split; [by etrans|]. by auto.
Qed.


(** X23. An exception leaves [main] only from the making of a directory or from
    the reading of the site list, never from a stage of a site: the last
    thing the run did was to make, or to try to make, a directory, and the
    exception is the one of the site list or an [OSError]. *)
Theorem main_raises_outside_the_stages (a : args) (t t' : fs) (w w' : W)
    (ev : list event) (e : exn) :
  main rt h a t w = (ev, t', w', Raise e) →
  (∃ p, last ev = Some (Mkdir p))
  ∧ (site_list h a w = Raise e ∨ ∃ msg, e = OSError msg).
Proof.
  destruct (environ_get h (pfx_pass_env a)) as [[|c pass]|] eqn:Henv.
  1,3: rewrite AgentFacts.main_unset by (rewrite Henv; done); by intros [=].
  rewrite (AgentFacts.main_steps rt h a (String c pass) t w Henv) by done.
  destruct (mkdir_p _ t) as [t1 [[]|e1]] eqn:H1.
  2:{ intros [= <- <- <- <-]. split; [by eexists|]. right.
      by apply AgentFacts.mkdir_p_raises in H1. }
  destruct (mkdir_p (_ ++ ["logs"]) t1) as [t2 [[]|e2]] eqn:H2.
  2:{ intros [= <- <- <- <-]. split; [by eexists|]. right.
      by apply AgentFacts.mkdir_p_raises in H2. }
  destruct (site_list h a w) as [[|site rest]|e3]; [by intros [=]| |].
  2:{ intros [= <- <- <- <-]. split; [by eexists | by left]. }
  destruct (AgentFacts.for_sites_spec rt h (resolve h (output a) ++ [ts h w]) a
              (String c pass) (site :: rest) t2 w)
    as (blocks & os & tail & t0 & w0 & r & Hr & _ & _ & _ & _ & _ & _ & Hend).
  rewrite Hr. destruct r as [os'|e4]; [by intros [=]|].
  intros [= <- <- <- <-]. destruct Hend as (Hmsg & s & _ & ->).
  split; [|by right]. eexists.
  change (Mkdir ?x :: Mkdir ?y :: ?l ++ ?m) with ((Mkdir x :: Mkdir y :: l) ++ m).
  apply last_snoc.
Qed.

End Main.

Lemma unsupported_url_spawns_nothing_witness :
  ∃ t1,
    process_site Demo.runtime (Demo.host []) Demo.arguments "secret" Demo.run_dir
      "http://contoso.sharepoint.com/sites/a" Fs.empty 0%nat
    = ([ Mkdir (site_dir_of Demo.run_dir "http://contoso.sharepoint.com/sites/a");
         Stdout "[grant] http://contoso.sharepoint.com/sites/a";
         Stderr ("Grant failed for http://contoso.sharepoint.com/sites/a: "
                 +:+ "Unsupported SharePoint URL: http://contoso.sharepoint.com/sites/a") ],
       t1, 0%nat,
       Ok (Failed Grant
             (ValueError "Unsupported SharePoint URL: http://contoso.sharepoint.com/sites/a"))).
Proof.
  eexists.
  apply (unsupported_url_spawns_nothing Demo.runtime (Demo.host []) Demo.arguments "secret"
           Demo.run_dir "http://contoso.sharepoint.com/sites/a" Fs.empty _ 0%nat
           (ValueError "Unsupported SharePoint URL: http://contoso.sharepoint.com/sites/a"));
    reflexivity.
Defined.


Lemma main_raises_outside_the_stages_witness :
  ∃ ev e,
    (∃ p, last ev = Some (Mkdir p))
    ∧ (site_list (Demo.host Demo.rows_ab) Demo.arguments 0%nat = Raise e
       ∨ ∃ msg, e = OSError msg).
Proof.
  eexists _, _.
  eapply (main_raises_outside_the_stages Demo.runtime (Demo.host Demo.rows_ab) Demo.arguments
            (store ["out"; "2026-01-01_00-00-00"] "taken" Fs.empty) _ 0%nat).
  vm_compute. reflexivity.
Defined.

Lemma reports_are_the_analysis_witness :
  let host := Demo.host [] in
  let run :=
    process_site Demo.runtime host Demo.arguments "secret" Demo.run_dir Demo.site_b
      Fs.empty 0%nat in
  let sd := site_dir_of Demo.run_dir Demo.site_b in
  ∃ t2 reports,
    analyze Demo.runtime t2 (now_iso host run.1.2) (audit_json sd) DEFAULT_THRESHOLDS
      (match internal_domains Demo.arguments with [] => false | _ => true end) = Ok reports
    ∧ run.1.1.2 = store (report_html sd) reports.2 (store (report_md sd) reports.1 t2)
    ∧ written run.1.1.1 = [(report_md sd, reports.1); (report_html sd, reports.2)].
Proof.
  intros host run sd.
  assert (run.2 = Ok Done) as Hd by (vm_compute; reflexivity).
  apply (AgentFacts.reports_are_the_analysis Demo.runtime host Demo.run_dir Demo.arguments
           "secret" Demo.site_b Fs.empty run.1.1.2 0%nat run.1.2 run.1.1.1).
  - apply AgentFacts.unobstructed_empty.
  - change (run = (run.1.1.1, run.1.1.2, run.1.2, Ok Done)). clearbody run.
    destruct run as [[[ev t'] w'] r]. cbn in Hd |- *. by rewrite Hd.
Defined.

Lemma process_site_mkdir_raises_witness :
  let tree := store (site_dir_of Demo.run_dir Demo.site_a) "taken" Fs.empty in
  ∃ t1 e,
    process_site Demo.runtime (Demo.host []) Demo.arguments "secret" Demo.run_dir
      Demo.site_a tree 0%nat
    = ([Mkdir (site_dir_of Demo.run_dir Demo.site_a)], t1, 0%nat, Raise e)
    ∧ for_sites Demo.runtime (Demo.host []) Demo.arguments "secret" Demo.run_dir
        [Demo.site_a; Demo.site_b] tree 0%nat
      = ([Mkdir (site_dir_of Demo.run_dir Demo.site_a)], t1, 0%nat, Raise e).
Proof.
  intros tree. eexists _, _.
  apply (AgentFacts.process_site_mkdir_raises Demo.runtime (Demo.host []) Demo.run_dir
           Demo.arguments "secret" Demo.site_a [Demo.site_b] tree _ 0%nat).
  vm_compute. reflexivity.
Defined.

End AgentMore.
